(** * Financial analytics dashboard ([financial_ratios.py])

    A shallow embedding of the dashboard script: the metric-card formatter
    [create_metric_card], the three cached loaders, the five navigation
    pages and the filter/aggregation panel of the "Filtered Visualizations"
    page, followed by the properties proved about them.

    Modelling conventions.
    - A pandas [DataFrame] is a list of column labels plus a list of rows;
      a row is a finite map from column label to cell, and a label without
      a cell in a row is a missing entry (NaN/NaT).
    - In the tables and their aggregates, floating-point numbers are
      idealised as the rationals extended with [NaN]; rounding error,
      infinities and 64-bit overflow are not represented there.  Decimal
      formatting rounds the exact value half-to-even, as Python's [format]
      does on the exact value of a float.
    - The metric card is modelled a second time on NumPy scalars, bit for
      bit (module [Np]): binary64 floats with their rounding, signed
      zeros, infinities and NaN, and 64-bit integers that wrap around.
    - Python exceptions are the constructors of [Exn]; a computation that
      can raise returns a [Result].
    - Streamlit output calls ([st.warning], [st.error], charts, cards) are
      collected as a list of [Output] events in call order; the sidebar,
      the style sheets and the chart layout are left out. *)

From Stdlib Require Import ZArith QArith Qround Qabs Ascii String.
From Stdlib Require Import DecimalString Sorted.
From Stdlib Require Import Floats.SpecFloat.
From stdpp Require Import gmap strings list.

Local Open Scope Z_scope.

(* ================================================================== *)
(** * Part I: definitions                                              *)
(* ================================================================== *)

(** ** Exceptions and results *)

Inductive Exn :=
| FileNotFoundError
| KeyError (key : string)
| IndexError
| TypeError
| AttributeError
| ZeroDivisionError
| OtherError (what : string).

Inductive Result (A : Type) :=
| Ok (a : A)
| Raise (e : Exn).
Arguments Ok {A} a.
Arguments Raise {A} e.

(** Sequencing: the first exception raised aborts the rest.  The
    instances give access to the notation [x ← r; k]. *)
#[global] Instance result_ret : MRet Result := fun _ a => Ok a.
#[global] Instance result_bind : MBind Result := fun _ _ k r =>
  match r with
  | Ok a => k a
  | Raise e => Raise e
  end.

(** ** Numbers: rationals extended with NaN *)

Inductive Float :=
| Finite (q : Q)
| NaN.

Definition of_Z (z : Z) : Float := Finite (inject_Z z).

Definition fsub (a b : Float) : Float :=
  match a, b with
  | Finite x, Finite y => Finite (x - y)
  | _, _ => NaN
  end.

Definition fmul (a b : Float) : Float :=
  match a, b with
  | Finite x, Finite y => Finite (x * y)
  | _, _ => NaN
  end.

Definition fabs (a : Float) : Float :=
  match a with
  | Finite x => Finite (Qabs x)
  | NaN => NaN
  end.

(** [a >= b]; every comparison with NaN is false. *)
Definition fge (a b : Float) : bool :=
  match a, b with
  | Finite x, Finite y => Qle_bool y x
  | _, _ => false
  end.

(** [a != 0]; NaN differs from everything. *)
Definition fnonzero (a : Float) : bool :=
  match a with
  | Finite x => negb (Qeq_bool x 0)
  | NaN => true
  end.

(** True division.  A zero divisor is the division fault. *)
Definition fdiv (a b : Float) : Result Float :=
  match b with
  | Finite y =>
      if Qeq_bool y 0 then Raise ZeroDivisionError
      else match a with
           | Finite x => Ok (Finite (x / y))
           | NaN => Ok NaN
           end
  | NaN => Ok NaN
  end.

(** ** Decimal formatting: the format specs [,.1f], [,.2f], [.1f], [.2f] *)

Definition round_half_even (q : Q) : Z :=
  let f := Qfloor q in
  match (q - inject_Z f ?= 1 # 2)%Q with
  | Lt => f
  | Gt => f + 1
  | Eq => if Z.even f then f else f + 1
  end.

Definition digits (n : Z) : string :=
  NilZero.string_of_uint (N.to_uint (Z.to_N n)).

Fixpoint zeros (n : nat) : string :=
  match n with
  | O => EmptyString
  | S k => String "0"%char (zeros k)
  end.

Definition pad_zeros (width : nat) (s : string) : string :=
  zeros (width - String.length s) +:+ s.

(** Thousands separators, computed on the reversed digit list; [k] counts
    the digits emitted since the last separator. *)
Fixpoint commas_rev (k : nat) (l : list ascii) : list ascii :=
  match l with
  | [] => []
  | c :: t =>
      match k with
      | 3%nat => ","%char :: c :: commas_rev 1 t
      | _ => c :: commas_rev (S k) t
      end
  end.

Definition group_thousands (s : string) : string :=
  string_of_list_ascii
    (rev (commas_rev 0 (rev (list_ascii_of_string s)))).

Definition format_fixed (comma : bool) (d : nat) (q : Q) : string :=
  let unit := 10 ^ Z.of_nat d in
  let n := round_half_even (Qabs q * inject_Z unit) in
  let int_part := digits (n / unit) in
  let frac_part := pad_zeros d (digits (n mod unit)) in
  (if Qlt_le_dec q 0 then "-" else EmptyString)
  +:+ (if comma then group_thousands int_part else int_part)
  +:+ "." +:+ frac_part.

Definition format_f (comma : bool) (d : nat) (x : Float) : string :=
  match x with
  | Finite q => format_fixed comma d q
  | NaN => "nan"
  end.

(** ** Calendar dates *)

Inductive Month :=
| January | February | March | April | May | June
| July | August | September | October | November | December.

Definition month_number (m : Month) : Z :=
  match m with
  | January => 1 | February => 2 | March => 3 | April => 4
  | May => 5 | June => 6 | July => 7 | August => 8
  | September => 9 | October => 10 | November => 11 | December => 12
  end.

(** [Series.dt.month_name()]: the English month name. *)
Definition month_name (m : Month) : string :=
  match m with
  | January => "January" | February => "February" | March => "March"
  | April => "April" | May => "May" | June => "June"
  | July => "July" | August => "August" | September => "September"
  | October => "October" | November => "November" | December => "December"
  end.

Record Date := { date_year : Z; date_month : Month; date_day : Z }.

(** Chronological order of dates. *)
Definition date_key (d : Date) : Z * Z * Z :=
  (date_year d, month_number (date_month d), date_day d).

Definition date_leb (a b : Date) : bool :=
  let '(ya, ma, da) := date_key a in
  let '(yb, mb, db) := date_key b in
  (ya <? yb) || ((ya =? yb) && ((ma <? mb) || ((ma =? mb) && (da <=? db)))).

(** [str] of a pandas timestamp at midnight. *)
Definition str_timestamp (d : Date) : string :=
  pad_zeros 4 (digits (date_year d)) +:+ "-"
  +:+ pad_zeros 2 (digits (month_number (date_month d))) +:+ "-"
  +:+ pad_zeros 2 (digits (date_day d)) +:+ " 00:00:00".

(** ** Python values reaching the metric card *)

(** Values that are neither [int] nor [float]: NumPy integers (not a
    subclass of [int]), strings, timestamps. *)
Inductive Obj :=
| NpInt (z : Z)
| PyStr (s : string)
| PyTimestamp (d : Date).

(** [PyFloat] also stands for [numpy.float64], which subclasses [float]. *)
Inductive PyValue :=
| PyInt (z : Z)
| PyFloat (x : Float)
| PyObj (o : Obj).

Definition str_int (z : Z) : string :=
  (if z <? 0 then "-" else EmptyString) +:+ digits (Z.abs z).

(** [str(value)] on the values that are not [int] or [float]. *)
Definition py_str (o : Obj) : string :=
  match o with
  | NpInt z => str_int z
  | PyStr s => s
  | PyTimestamp d => str_timestamp d
  end.

(** The operand of an arithmetic operator; strings and timestamps do not
    support the operators used on the pages. *)
Definition to_float (v : PyValue) : Result Float :=
  match v with
  | PyInt z => Ok (of_Z z)
  | PyFloat x => Ok x
  | PyObj (NpInt z) => Ok (of_Z z)
  | PyObj _ => Raise TypeError
  end.

(** ** [COLOR_SCHEME] *)

Definition color_positive : string := "#27ae60".
Definition color_negative : string := "#e74c3c".
Definition color_neutral : string := "#7f8c8d".

(** ** [create_metric_card]

    The function returns an HTML fragment that interpolates [title],
    [value_display], [change_color] and [change_text] into a fixed
    template; the card is represented by these four computed fields, plus
    the arrow on which the change text is built. *)

Record Card := {
  card_title : string;
  value_display : string;
  card_arrow : string;
  change_color : string;
  change_text : string
}.

Definition million : Float := of_Z 1000000.
Definition thousand : Float := of_Z 1000.

Definition scaled (x by_ : Float) : Float :=
  match x, by_ with
  | Finite a, Finite b => Finite (a / b)
  | _, _ => NaN
  end.

Definition format_number (x : Float) : string :=
  if fge (fabs x) million then
    "$" +:+ format_f true 1 (scaled x million) +:+ "M"
  else if fge (fabs x) thousand then
    "$" +:+ format_f true 1 (scaled x thousand) +:+ "K"
  else format_f true 2 x.

(** The [isinstance(value, (int, float))] test and its two branches. *)
Definition format_value (value : PyValue) : string :=
  match value with
  | PyInt z => format_number (of_Z z)
  | PyFloat x => format_number x
  | PyObj o => py_str o
  end.

Definition up_arrow : string := "↑".
Definition down_arrow : string := "↓".

Definition create_metric_card (title : string) (value : PyValue)
    (change change_pct : option Float) (icon : string) : Card :=
  let value_display := format_value value in
  match change, change_pct with
  | Some change, Some change_pct =>
      let arrow := if fge change (of_Z 0) then up_arrow else down_arrow in
      {| card_title := title;
         value_display := value_display;
         card_arrow := arrow;
         change_color :=
           if fge change (of_Z 0) then color_positive else color_negative;
         change_text :=
           arrow +:+ " " +:+ format_f true 2 (fabs change)
           +:+ " (" +:+ format_f false 1 (fabs change_pct) +:+ "%)" |}
  | _, _ =>
      {| card_title := title;
         value_display := value_display;
         card_arrow := EmptyString;
         change_color := color_neutral;
         change_text := EmptyString |}
  end.

(** ** Change and percent change, as computed before each delta card

    [change = latest - prev] and
    [change_pct = (change / prev) * 100 if prev != 0 else 0]. *)

Definition pct_change (change prev : Float) : Result Float :=
  if fnonzero prev then
    q ← fdiv change prev; Ok (fmul q (of_Z 100))
  else Ok (of_Z 0).

Definition delta_of (latest prev : PyValue) : Result (Float * Float) :=
  l ← to_float latest;
  p ← to_float prev;
  let change := fsub l p in
  pct ← pct_change change p;
  Ok (change, pct).

(** A delta card: value, change against the previous value, and percent
    change, as in the "Latest Revenue" card. *)
Definition delta_card (title : string) (latest prev : PyValue)
    (icon : string) : Result Card :=
  '(change, pct) ← delta_of latest prev;
  Ok (create_metric_card title latest (Some change) (Some pct) icon).

(** ** Data frames *)

Inductive Cell :=
| CInt (z : Z)
| CFloat (q : Q)
| CStr (s : string)
| CDate (d : Date).

Abbreviation Row := (gmap string Cell).

(** A column of a frame: one optional cell per row. *)
Abbreviation Series := (list (option Cell)).

Record DataFrame := { columns : list string; rows : list Row }.

(** [pd.DataFrame()] *)
Definition empty_frame : DataFrame := {| columns := []; rows := [] |}.

(** [df.empty]: some axis has length zero. *)
Definition df_empty (df : DataFrame) : bool :=
  match columns df, rows df with
  | [], _ | _, [] => true
  | _, _ => false
  end.

(** [len(df)] *)
Definition len (df : DataFrame) : Z := Z.of_nat (length (rows df)).

(** [df[col]]: [KeyError] when the label is not a column. *)
Definition getitem (df : DataFrame) (col : string) : Result Series :=
  if bool_decide (col ∈ columns df) then Ok ((.!! col) <$> rows df)
  else Raise (KeyError col).

(** [series.iloc[i]], negative positions counting from the end. *)
Definition iloc {A} (s : list A) (i : Z) : Result A :=
  let n := Z.of_nat (length s) in
  let j := if i <? 0 then n + i else i in
  if (0 <=? j) && (j <? n) then
    match s !! Z.to_nat j with
    | Some a => Ok a
    | None => Raise IndexError
    end
  else Raise IndexError.

(** The scalar read from a series position: pandas hands out NumPy
    scalars, [numpy.int64] from an integer column and [numpy.float64] from
    a float column, and NaN for a missing entry. *)
Definition item (c : option Cell) : PyValue :=
  match c with
  | None => PyFloat NaN
  | Some (CInt z) => PyObj (NpInt z)
  | Some (CFloat q) => PyFloat (Finite q)
  | Some (CStr s) => PyObj (PyStr s)
  | Some (CDate d) => PyObj (PyTimestamp d)
  end.

Definition add_column (col : string) (cols : list string) : list string :=
  if bool_decide (col ∈ cols) then cols else cols ++ [col].

(** [df[col] = scalar], in place. *)
Definition setitem_scalar (df : DataFrame) (col : string) (c : Cell)
  : DataFrame :=
  {| columns := add_column col (columns df);
     rows := insert col c <$> rows df |}.

Definition set_cell (col : string) (r : Row) (v : option Cell) : Row :=
  match v with
  | Some c => <[col := c]> r
  | None => delete col r
  end.

(** [df[col] = series], for a series derived from the same frame. *)
Definition setitem_series (df : DataFrame) (col : string) (s : Series)
  : DataFrame :=
  {| columns := add_column col (columns df);
     rows := zip_with (set_cell col) (rows df) s |}.

(** [pd.concat([a, b])]: rows of [a] then rows of [b], over the union of
    the columns in order of appearance. *)
Definition concat (a b : DataFrame) : DataFrame :=
  {| columns := foldl (fun cols c => add_column c cols) (columns a) (columns b);
     rows := rows a ++ rows b |}.

(** [df.rename(columns=mapping)] *)
Definition renamed (mapping : list (string * string)) (c : string) : string :=
  match list_find (fun p => p.1 = c) mapping with
  | Some (_, (_, c')) => c'
  | None => c
  end.

Definition rename_row (mapping : list (string * string)) (r : Row) : Row :=
  kmap (renamed mapping) r.

Definition rename (mapping : list (string * string)) (df : DataFrame)
  : DataFrame :=
  {| columns := renamed mapping <$> columns df;
     rows := rename_row mapping <$> rows df |}.

(** [df[mask]] for a mask computed row by row. *)
Definition select_rows (keep : Row → bool) (df : DataFrame) : DataFrame :=
  {| columns := columns df; rows := List.filter keep (rows df) |}.

(** [series.dt.<field>]: needs a datetime column. *)
Definition dt_cell (f : Date → Cell) (c : option Cell) : Result (option Cell) :=
  match c with
  | None => Ok None
  | Some (CDate d) => Ok (Some (f d))
  | Some _ => Raise AttributeError
  end.

Definition dt_field (f : Date → Cell) (s : Series) : Result Series :=
  mapM (dt_cell f) s.

(** The numeric content of a column, as [mean] reads it: missing entries
    stay missing, numbers are read as floats, anything else is refused. *)
Definition numeric_cell (c : option Cell) : Result (option Q) :=
  match c with
  | None => Ok None
  | Some (CInt z) => Ok (Some (inject_Z z))
  | Some (CFloat q) => Ok (Some q)
  | Some _ => Raise TypeError
  end.

Definition numeric_series (s : Series) : Result (list (option Q)) :=
  mapM numeric_cell s.

(** ** Means *)

Definition Qsum (l : list Q) : Q := foldr Qplus 0%Q l.

(** The arithmetic mean; of no value at all it is NaN. *)
Definition mean_of (l : list Q) : Float :=
  match l with
  | [] => NaN
  | _ => Finite (Qsum l / inject_Z (Z.of_nat (length l)))
  end.

(** ** Group-by and mean

    The grouped frame is read as one (key, value) pair per row.  A row
    without key belongs to no group; a row without value belongs to its
    group and is skipped by the mean. *)

Definition group_rows {K} `{EqDecision K} (k : K)
    (keyed : list (option K * option Q)) : list (option K * option Q) :=
  filter (fun p => p.1 = Some k) keyed.

Definition group_mean {K} `{EqDecision K} (k : K)
    (keyed : list (option K * option Q)) : Float :=
  mean_of (omap snd (group_rows k keyed)).

(** Grouping by an ordered categorical key: one bucket per category, in
    category order.  [observed] is the [observed] argument of [groupby]:
    when false every category gets a bucket, when true only the categories
    that occur in the data. *)
Definition groupby_categorical_mean (observed : bool)
    (categories : list string)
    (keyed : list (option string * option Q)) : list (string * Float) :=
  omap (fun c =>
          if observed && bool_decide (group_rows c keyed = [])
          then None
          else Some (c, group_mean c keyed))
       categories.

(** Grouping by a plain key: one bucket per distinct key, keys sorted. *)
Fixpoint insert_unique (x : Z) (l : list Z) : list Z :=
  match l with
  | [] => [x]
  | y :: t =>
      if x <? y then x :: l
      else if x =? y then l
      else y :: insert_unique x t
  end.

Definition sorted_unique (l : list Z) : list Z := foldr insert_unique [] l.

Definition groupby_sorted_mean (keyed : list (option Z * option Q))
  : list (Z * Float) :=
  (fun y => (y, group_mean y keyed)) <$> sorted_unique (omap fst keyed).

(** ** Streamlit output and the script's collaborators *)

Inductive Output :=
| StTitle (text : string)
| StError (msg : string)
| StWarning (msg : string)
| StCard (c : Card)
| StBarChart (title x_col : string) (data : list (Cell * Float))
| StDataframe (data : list (Cell * Float))
| StWidget (what : string).

(** What the script takes from its libraries and the parts of the pages
    that are rendering only: the CSV reader (file system included), the
    date parser, the default of [observed] in [groupby] (false before
    pandas 3, true from pandas 3 on), and the bodies of the pages under
    their [if not df.empty] guards. *)
Record Env := {
  read_csv : string → Result DataFrame;
  to_datetime : Series → Result Series;
  groupby_observed : bool;
  metrics_body : DataFrame → Result (list Output);
  explorer_body : DataFrame → Result (list Output);
  commodities_body : DataFrame → Result (list Output);
  sentiment_charts : DataFrame → string → Result (list Output)
}.

(** ** Loaders *)

Definition financial_path : string := "financials_cleaned_for_plots.csv".
Definition commodities_path : string := "commodities.csv".
Definition sentiment_path : string := "senti.csv".

(** [data[col] = pd.to_datetime(data[col])] *)
Definition parse_dates (env : Env) (col : string) (data : DataFrame)
  : Result DataFrame :=
  s ← getitem data col;
  dates ← to_datetime env s;
  Ok (setitem_series data col dates).

(** Each loader is decorated with [st.cache_data], which memoises its
    result for later runs; one run is modelled here.

    The [try ... except FileNotFoundError] of the three loaders: the
    handler reports with [st.error] and returns an empty frame; any other
    exception propagates. *)
Definition except_file_not_found (attempt : Result DataFrame) (msg : string)
  : Result DataFrame * list Output :=
  match attempt with
  | Raise FileNotFoundError => (Ok empty_frame, [StError msg])
  | r => (r, [])
  end.

Definition load_financial_data (env : Env) : Result DataFrame * list Output :=
  except_file_not_found
    (data ← read_csv env financial_path;
     data ← parse_dates env "Date" data;
     Ok (rename [("Shareholder's Equity", "Shareholders_Equity")] data))
    ("Financial data file not found at: " +:+ financial_path).

Definition load_commodities_data (env : Env)
  : Result DataFrame * list Output :=
  except_file_not_found
    (data ← read_csv env commodities_path;
     data ← parse_dates env "Date" data;
     Ok (rename [("CPIAUCSL", "CPI"); ("WTISPLC", "Oil");
                 ("PCOPPUSDM", "Copper"); ("GDP", "GDP")] data))
    ("Commodities data file not found at: " +:+ commodities_path).

Definition load_sentiment_data (env : Env) : Result DataFrame * list Output :=
  except_file_not_found
    (data ← read_csv env sentiment_path;
     if bool_decide ("date" ∈ columns data)
     then parse_dates env "date" data
     else Ok data)
    ("Sentiment data file not found at: " +:+ sentiment_path).

(** The three module-level tables. *)
Record Globals := {
  financial_df : DataFrame;
  commodities_df : DataFrame;
  sentiment_df : DataFrame
}.

(** ** Latest and previous value of a column (metric cards) *)

Definition latest_prev (df : DataFrame) (col : string)
  : Result (PyValue * PyValue) :=
  s ← getitem df col;
  latest ← iloc s (-1);
  prev ← (if 1 <? len df then iloc s (-2) else Ok latest);
  Ok (item latest, item prev).

(** ** Pages guarded by [if not df.empty] *)

Definition metrics_page (env : Env) (g : Globals) : Result (list Output) :=
  if negb (df_empty (financial_df g)) then
    out ← metrics_body env (financial_df g);
    Ok (StTitle "Financial Performance Dashboard" :: out)
  else
    Ok [StTitle "Financial Performance Dashboard";
        StWarning "No financial data available"].

Definition explorer_page (env : Env) (g : Globals) : Result (list Output) :=
  if negb (df_empty (financial_df g)) then
    out ← explorer_body env (financial_df g);
    Ok (StTitle "Financial Data Explorer" :: out)
  else
    Ok [StTitle "Financial Data Explorer";
        StWarning "No financial data available"].

Definition commodities_page (env : Env) (g : Globals) : Result (list Output) :=
  if negb (df_empty (commodities_df g)) then
    out ← commodities_body env (commodities_df g);
    Ok (StTitle "Commodities & Macroeconomic Factors Dashboard" :: out)
  else
    Ok [StTitle "Commodities & Macroeconomic Factors Dashboard";
        StWarning "No commodities data available"].

(** ** News Sentiments page *)

Definition possible_sentiment_cols : list string :=
  ["sentiment_score"; "sentiment"; "score"; "sentiment score"].

(** The [for col in possible_sentiment_cols: ... break] loop. *)
Fixpoint first_present (candidates cols : list string) : option string :=
  match candidates with
  | [] => None
  | col :: rest =>
      if bool_decide (col ∈ cols) then Some col else first_present rest cols
  end.

Fixpoint join (sep : string) (l : list string) : string :=
  match l with
  | [] => EmptyString
  | [x] => x
  | x :: t => x +:+ sep +:+ join sep t
  end.

Definition sentiment_missing_msg (cols : list string) : string :=
  "Sentiment column not found. Available columns: " +:+ join ", " cols.

Definition sentiments_page (env : Env) (g : Globals) : Result (list Output) :=
  let df := sentiment_df g in
  if negb (df_empty df) then
    match first_present possible_sentiment_cols (columns df) with
    | Some sentiment_col =>
        out ← sentiment_charts env df sentiment_col;
        Ok (StTitle "News Sentiment Analysis" :: out)
    | None =>
        Ok [StTitle "News Sentiment Analysis";
            StError (sentiment_missing_msg (columns df))]
    end
  else
    Ok [StTitle "News Sentiment Analysis";
        StWarning "No sentiment data loaded"].

(** ** Filtered Visualizations page *)

Inductive Dataset := AllData | Financial | Commodities.
Inductive TimeAgg := Monthly | Yearly.

(** The state of the widgets: the three select boxes (the metric by its
    position in the option list) and the check box. *)
Record Selection := {
  sel_dataset : Dataset;
  sel_column : nat;
  sel_time_agg : TimeAgg;
  sel_show_table : bool
}.

(** [financial_df['source'] = 'financial'] and
    [commodities_df['source'] = 'commodities'], on the module-level
    tables themselves. *)
Definition tag_sources (g : Globals) : Globals :=
  {| financial_df := setitem_scalar (financial_df g) "source" (CStr "financial");
     commodities_df :=
       setitem_scalar (commodities_df g) "source" (CStr "commodities");
     sentiment_df := sentiment_df g |}.

(** [series.dt.year] is an integer column as long as every entry of the
    series is a date.  NumPy integers have no missing value: when an entry
    is missing (NaT) pandas hands the whole column out as floats, 2020.0
    for the year 2020, with NaN for the missing entries. *)
Definition has_missing (s : Series) : bool :=
  existsb (fun c => match c with None => true | Some _ => false end) s.

Definition year_label (as_float : bool) (y : Z) : Cell :=
  if as_float then CFloat (inject_Z y) else CInt y.

Definition year_cell (as_float : bool) (d : Date) : Cell :=
  year_label as_float (date_year d).

Definition month_cell (d : Date) : Cell := CStr (month_name (date_month d)).

(** [combined_df]: the concatenation with its derived [year] and [month]
    columns. *)
Definition combine (g : Globals) : Result DataFrame :=
  let combined_df := concat (financial_df g) (commodities_df g) in
  dates ← getitem combined_df "Date";
  years ← dt_field (year_cell (has_missing dates)) dates;
  let combined_df := setitem_series combined_df "year" years in
  dates ← getitem combined_df "Date";
  months ← dt_field month_cell dates;
  Ok (setitem_series combined_df "month" months).

Definition has_source (name : string) (r : Row) : bool :=
  match r !! "source" with
  | Some (CStr s) => bool_decide (s = name)
  | _ => false
  end.

Definition filter_dataset (dataset : Dataset) (combined_df : DataFrame)
  : DataFrame :=
  match dataset with
  | Financial => select_rows (has_source "financial") combined_df
  | Commodities => select_rows (has_source "commodities") combined_df
  | AllData => combined_df
  end.

(** The dtype of a column is read off its cells: it is numeric when the
    frame has rows and the cells of the column are numbers or missing.  In
    a frame without rows, as read from a file that has only a header line,
    no column is numeric (they have dtype [object]). *)
Definition numeric_dtype (df : DataFrame) (col : string) : bool :=
  match rows df with
  | [] => false
  | _ =>
      forallb (fun r => match r !! col with
                        | None | Some (CInt _) | Some (CFloat _) => true
                        | Some _ => false
                        end) (rows df)
  end.

(** [select_dtypes(include=['float64', 'int64']).columns.tolist()].
    Selecting rows keeps the dtypes, so they are read off the frame the
    rows were selected from. *)
Definition numeric_cols (combined_df filtered_df : DataFrame) : list string :=
  List.filter (numeric_dtype combined_df) (columns filtered_df).

Definition structural_cols : list string := ["year"; "month"; "source"].

Definition metric_options (combined_df filtered_df : DataFrame)
  : list string :=
  List.filter (fun col => negb (bool_decide (col ∈ structural_cols)))
              (numeric_cols combined_df filtered_df).

Definition month_order : list string :=
  ["January"; "February"; "March"; "April"; "May"; "June";
   "July"; "August"; "September"; "October"; "November"; "December"].

(** The key of a row under [pd.Categorical(..., categories=month_order)]:
    a value outside the categories is no key. *)
Definition row_month (r : Row) : option string :=
  match r !! "month" with
  | Some (CStr s) => if bool_decide (s ∈ month_order) then Some s else None
  | _ => None
  end.

(** The key of a row under [groupby('year')].  The column is the derived
    one (the assignment of line 1016 replaces any [year] column of the
    files), so its floats are whole numbers; the float 2020.0 and the
    integer 2020 are read as the same year, and [year_is_float] keeps
    which of the two the column holds. *)
Definition row_year (r : Row) : option Z :=
  match r !! "year" with
  | Some (CInt y) => Some y
  | Some (CFloat q) => if (Qden q =? 1)%positive then Some (Qnum q) else None
  | _ => None
  end.

Definition year_is_float (df : DataFrame) : bool :=
  existsb (fun r => match r !! "year" with
                    | Some (CFloat _) => true
                    | _ => false
                    end) (rows df).

Definition label_of {K} (mk : K → Cell) (p : K * Float) : Cell * Float :=
  (mk p.1, p.2).

(** [agg_df]: the (bucket, mean) pairs in output order. *)
Definition aggregate (observed : bool) (time_agg : TimeAgg)
    (filtered_df : DataFrame) (column : string)
  : Result (list (Cell * Float)) :=
  s ← getitem filtered_df column;
  values ← numeric_series s;
  match time_agg with
  | Monthly =>
      Ok (label_of CStr <$>
            groupby_categorical_mean observed month_order
              (zip (row_month <$> rows filtered_df) values))
  | Yearly =>
      Ok (label_of (year_label (year_is_float filtered_df)) <$>
            groupby_sorted_mean (zip (row_year <$> rows filtered_df) values))
  end.

Definition chart_title (time_agg : TimeAgg) (column : string) : string :=
  match time_agg with
  | Monthly => "Average Monthly " +:+ column +:+ " (Across Years)"
  | Yearly => "Yearly " +:+ column
  end.

Definition x_col (time_agg : TimeAgg) : string :=
  match time_agg with
  | Monthly => "month"
  | Yearly => "year"
  end.

(** The page proper, after the two tagging assignments. *)
Definition filtered_visuals_body (env : Env) (sel : Selection) (g : Globals)
  : Result (list Output) :=
  combined_df ← combine g;
  let filtered_df := filter_dataset (sel_dataset sel) combined_df in
  column ← match metric_options combined_df filtered_df !! sel_column sel with
           | Some col => Ok col
           | None => Raise (KeyError "None")
           end;
  agg_df ← aggregate (groupby_observed env) (sel_time_agg sel)
             filtered_df column;
  Ok ([StTitle "Data Explorer with Filters";
       StBarChart (chart_title (sel_time_agg sel) column)
                  (x_col (sel_time_agg sel)) agg_df]
      ++ (if sel_show_table sel then [StDataframe agg_df] else [])).

(** ** One run of the script on the loaded tables

    A page returns the module-level tables as it leaves them together with
    what it rendered or the exception that ended it. *)

Inductive Page :=
| FinancialMetrics | DataExplorer | CommoditiesMacro
| NewsSentiments | FilteredVisualizations.

Definition render (env : Env) (page : Page) (sel : Selection) (g : Globals)
  : Globals * Result (list Output) :=
  match page with
  | FinancialMetrics => (g, metrics_page env g)
  | DataExplorer => (g, explorer_page env g)
  | CommoditiesMacro => (g, commodities_page env g)
  | NewsSentiments => (g, sentiments_page env g)
  | FilteredVisualizations =>
      let g := tag_sources g in (g, filtered_visuals_body env sel g)
  end.

(** Loading, top of the script: the three loaders in order. *)
Definition load_data (env : Env) : Result Globals * list Output :=
  let '(f, out_f) := load_financial_data env in
  let '(c, out_c) := load_commodities_data env in
  let '(s, out_s) := load_sentiment_data env in
  match f, c, s with
  | Ok f, Ok c, Ok s =>
      (Ok {| financial_df := f; commodities_df := c; sentiment_df := s |},
       out_f ++ out_c ++ out_s)
  | Raise e, _, _ => (Raise e, out_f)
  | _, Raise e, _ => (Raise e, out_f ++ out_c)
  | _, _, Raise e => (Raise e, out_f ++ out_c ++ out_s)
  end.

Definition run_script (env : Env) (page : Page) (sel : Selection)
  : Result (list Output) :=
  let '(g, loaded) := load_data env in
  g ← g;
  out ← (render env page sel g).2;
  Ok (loaded ++ out).

(** ** Vocabulary of the properties *)

(** A cell that holds a number. *)
Definition is_number (c : Cell) : bool :=
  match c with
  | CInt _ | CFloat _ => true
  | _ => false
  end.

(** The date of a row, when its [Date] cell holds one. *)
Definition row_date (r : Row) : option Date :=
  match r !! "Date" with
  | Some (CDate d) => Some d
  | _ => None
  end.

(** Every row is dated and the dates never decrease down the table. *)
Fixpoint dates_ascending (l : list Row) : bool :=
  match l with
  | r1 :: ((r2 :: _) as t) =>
      match row_date r1, row_date r2 with
      | Some a, Some b => date_leb a b
      | _, _ => false
      end && dates_ascending t
  | _ => true
  end.

(** [r] is dated no later than [r']. *)
Definition not_later (r r' : Row) : Prop :=
  ∃ d d', row_date r = Some d ∧ row_date r' = Some d' ∧ date_leb d d' = true.

#[global] Instance month_eq_dec : EqDecision Month.
Proof. solve_decision. Defined.

Definition all_months : list Month :=
  [January; February; March; April; May; June;
   July; August; September; October; November; December].


(** The number a row holds in a column, if it holds one. *)
Definition number_at (col : string) (r : Row) : option Q :=
  match r !! col with
  | Some (CInt z) => Some (inject_Z z)
  | Some (CFloat q) => Some q
  | _ => None
  end.


Definition rows_of_month (m : Month) (df : DataFrame) : list Row :=
  filter (fun r => date_month <$> row_date r = Some m) (rows df).




(** The months that get a bucket: under [observed] those with a row. *)
Definition bucket_months (observed : bool) (df : DataFrame) : list Month :=
  List.filter
    (fun m => negb (observed && bool_decide (rows_of_month m df = [])))
    all_months.


(** A column derived from the dates: every row gets the field of its own
    date and keeps its other cells. *)
Definition derived_from_date (f : Date → Cell) (col : string)
    (r r' : Row) : Prop :=
  dt_cell f (r !! "Date") = Ok (r' !! col)
  ∧ ∀ c, c ≠ col → r' !! c = r !! c.




(** ** Sample tables *)

(** Two dated rows in ascending order. *)
Definition two_dated_rows : DataFrame :=
  {| columns := ["Date"; "Total Revenue"];
     rows :=
       [ {[ "Date" := CDate {| date_year := 2022; date_month := December;
                               date_day := 31 |};
            "Total Revenue" := CFloat (inject_Z 100) ]};
         {[ "Date" := CDate {| date_year := 2023; date_month := March;
                               date_day := 31 |};
            "Total Revenue" := CFloat (inject_Z 110) ]} ] |}.

(** A sentiment file with a header line and no data line. *)
Definition header_only_sentiment : DataFrame :=
  {| columns := ["headline"; "label"]; rows := [] |}.

(** Financial and commodity tables as the loaders return them. *)
Definition sample_financial : DataFrame :=
  {| columns := ["Date"; "Total Revenue"];
     rows :=
       [ {[ "Date" := CDate {| date_year := 2020; date_month := January;
                               date_day := 31 |};
            "Total Revenue" := CFloat (inject_Z 10) ]};
         {[ "Date" := CDate {| date_year := 2021; date_month := January;
                               date_day := 31 |};
            "Total Revenue" := CFloat (inject_Z 20) ]} ] |}.

Definition sample_commodities : DataFrame :=
  {| columns := ["Date"; "CPI"];
     rows :=
       [ {[ "Date" := CDate {| date_year := 2020; date_month := March;
                               date_day := 1 |};
            "CPI" := CFloat (inject_Z 3) ]} ] |}.

Definition sample_globals : Globals :=
  {| financial_df := sample_financial;
     commodities_df := sample_commodities;
     sentiment_df := header_only_sentiment |}.

(** Collaborators that render nothing, find no file and parse dates as
    they are, with the given [observed] default. *)
Definition quiet_env (observed : bool) : Env :=
  {| read_csv := fun _ => Raise FileNotFoundError;
     to_datetime := Ok;
     groupby_observed := observed;
     metrics_body := fun _ => Ok [];
     explorer_body := fun _ => Ok [];
     commodities_body := fun _ => Ok [];
     sentiment_charts := fun _ _ => Ok [] |}.

(** The same collaborators on a disk without input files. *)
Definition files_missing (env : Env) : Env :=
  {| read_csv := fun _ => Raise FileNotFoundError;
     to_datetime := to_datetime env;
     groupby_observed := groupby_observed env;
     metrics_body := metrics_body env;
     explorer_body := explorer_body env;
     commodities_body := commodities_body env;
     sentiment_charts := sentiment_charts env |}.

(** All three tables empty, as loaded from a disk without input files. *)
Definition no_data : Globals :=
  {| financial_df := empty_frame;
     commodities_df := empty_frame;
     sentiment_df := empty_frame |}.

(** [new] is [old] with the [source] column set to [tag] on every row and
    nothing else touched. *)
Definition tagged_copy (tag : string) (old new : DataFrame) : Prop :=
  columns new = add_column "source" (columns old)
  ∧ length (rows new) = length (rows old)
  ∧ ∀ i r', rows new !! i = Some r' →
      r' !! "source" = Some (CStr tag)
      ∧ ∃ r, rows old !! i = Some r
             ∧ ∀ col, col ≠ "source" → r' !! col = r !! col.

(** A sentiment table whose score is found under two of the aliases. *)
Definition scored_sentiment : DataFrame :=
  {| columns := ["headline"; "score"; "sentiment"];
     rows := [ {[ "headline" := CStr "Record quarter";
                  "score" := CFloat (1 # 2);
                  "sentiment" := CFloat (3 # 4) ]} ] |}.


(** The widgets as the page first shows them: [index=0] in every select
    box, check box clear. *)
Definition default_selection : Selection :=
  {| sel_dataset := AllData; sel_column := 0;
     sel_time_agg := Monthly; sel_show_table := false |}.

(** The combined table of the sample tables, tagged and with its year
    and month columns. *)
Definition sample_combined : DataFrame :=
  match combine (tag_sources sample_globals) with
  | Ok combined_df => combined_df
  | Raise _ => empty_frame
  end.




(** ** Further computations of the pages *)

(** A delta card of the Commodities page: the value is handed over as the
    string [f"{latest:.2f}"] (or [f"{latest:,.2f}"]), the change and percent
    change as numbers. *)
Definition commodity_delta_card (title : string) (comma : bool)
    (latest prev : PyValue) (icon : string) : Result Card :=
  '(change, pct) ← delta_of latest prev;
  l ← to_float latest;
  Ok (create_metric_card title (PyObj (PyStr (format_f comma 2 l)))
        (Some change) (Some pct) icon).

(** The "Latest CPI" card. *)
Definition cpi_card (df : DataFrame) : Result Card :=
  '(latest_cpi, prev_cpi) ← latest_prev df "CPI";
  commodity_delta_card "Latest CPI" false latest_cpi prev_cpi "📉".

(** [series.max()] and [series.min()]: missing entries are skipped, and
    of no value at all the result is NaN. *)
Definition larger (a b : Q) : Q := if Qle_bool a b then b else a.
Definition smaller (a b : Q) : Q := if Qle_bool a b then a else b.

Definition max_of (l : list Q) : Float :=
  match l with
  | [] => NaN
  | x :: t => Finite (foldl larger x t)
  end.

Definition min_of (l : list Q) : Float :=
  match l with
  | [] => NaN
  | x :: t => Finite (foldl smaller x t)
  end.

Definition present (values : list (option Q)) : list Q := omap id values.

Definition series_max (s : Series) : Result Float :=
  values ← numeric_series s; Ok (max_of (present values)).

Definition series_min (s : Series) : Result Float :=
  values ← numeric_series s; Ok (min_of (present values)).

(** The Max and Min numbers of a section of the Commodities page,
    [df[col].max()] and [df[col].min()]. *)
Definition column_extremes (df : DataFrame) (col : string)
  : Result (Float * Float) :=
  s ← getitem df col;
  hi ← series_max s;
  s ← getitem df col;
  lo ← series_min s;
  Ok (hi, lo).

(** [display_df] of the Data Explorer page: the loader's label is renamed
    back for display. *)
Definition explorer_display (df : DataFrame) : DataFrame :=
  rename [("Shareholders_Equity", "Shareholder's Equity")] df.

(** ** Further vocabulary *)

(** A string without its thousands separators. *)
Definition not_comma (c : ascii) : bool := negb (Ascii.eqb c ","%char).

Definition strip_commas (s : string) : string :=
  string_of_list_ascii (List.filter not_comma (list_ascii_of_string s)).

(** Every [Date] cell of the table is a date or missing. *)
Definition dates_valid (df : DataFrame) : bool :=
  forallb (fun r => match r !! "Date" with
                    | None | Some (CDate _) => true
                    | Some _ => false
                    end) (rows df).

(** The row carries one of the two source tags. *)
Definition tagged (r : Row) : Prop :=
  r !! "source" = Some (CStr "financial")
  ∨ r !! "source" = Some (CStr "commodities").

(** A CSV export of the financial table, under its raw labels. *)
Definition raw_financial : DataFrame :=
  {| columns := ["Date"; "Total Revenue"; "Shareholder's Equity"];
     rows :=
       [ {[ "Date" := CDate {| date_year := 2023; date_month := March;
                               date_day := 31 |};
            "Total Revenue" := CInt 0;
            "Shareholder's Equity" := CFloat (inject_Z 62) ]};
         {[ "Date" := CDate {| date_year := 2023; date_month := June;
                               date_day := 30 |};
            "Total Revenue" := CInt 81797;
            "Shareholder's Equity" := CFloat (inject_Z 60) ]} ] |}.

(** Collaborators that read every path as the given table. *)
Definition reading (data : DataFrame) : Env :=
  {| read_csv := fun _ => Ok data;
     to_datetime := Ok;
     groupby_observed := false;
     metrics_body := fun _ => Ok [];
     explorer_body := fun _ => Ok [];
     commodities_body := fun _ => Ok [];
     sentiment_charts := fun _ _ => Ok [] |}.

(** A commodities table with three CPI readings, one of them missing. *)
Definition cpi_table : DataFrame :=
  {| columns := ["Date"; "CPI"];
     rows :=
       [ {[ "Date" := CDate {| date_year := 2023; date_month := April;
                               date_day := 1 |};
            "CPI" := CFloat (3030 # 10) ]};
         {[ "Date" := CDate {| date_year := 2023; date_month := May;
                               date_day := 1 |} ]};
         {[ "Date" := CDate {| date_year := 2023; date_month := June;
                               date_day := 1 |};
            "CPI" := CFloat (3041 # 10) ]} ] |}.



(** The financial file is missing and the commodities file has no [Date]
    column. *)
Definition dateless_commodities (env : Env) : Env :=
  {| read_csv := fun path =>
       if bool_decide (path = commodities_path)
       then Ok header_only_sentiment
       else Raise FileNotFoundError;
     to_datetime := to_datetime env;
     groupby_observed := groupby_observed env;
     metrics_body := metrics_body env;
     explorer_body := explorer_body env;
     commodities_body := commodities_body env;
     sentiment_charts := sentiment_charts env |}.



(** The loaded tables when only the commodities file exists. *)
Definition commodities_only : Globals :=
  {| financial_df := empty_frame;
     commodities_df := sample_commodities;
     sentiment_df := empty_frame |}.

(** Two rows agree outside the derived [year] and [month] columns. *)
Definition same_but_derived (r r' : Row) : Prop :=
  ∀ col, col ≠ "year" → col ≠ "month" → r' !! col = r !! col.

(** A [Date] cell that [.dt] accepts: a date or a missing entry. *)
Definition date_or_missing (c : option Cell) : Prop :=
  match c with
  | None | Some (CDate _) => True
  | Some _ => False
  end.

(** ** The metric card on NumPy scalars

    The numbers that reach [create_metric_card] from the tables are NumPy
    scalars.  This module computes with them bit for bit:
    [numpy.float64] is IEEE-754 binary64 ([spec_float] at 53 bits of
    precision, rounding to nearest even, with signed zeros, infinities and
    NaN), [numpy.int64] wraps around at 64 bits, and a format spec prints
    the correctly rounded decimal of the exact binary value.  A Python
    [float] is the same binary64. *)

Module Np.

Definition prec : Z := 53.
Definition emax : Z := 1024.

(** [float(z)]: the binary64 nearest to the integer. *)
Definition f64_of_Z (z : Z) : spec_float :=
  binary_normalize prec emax z 0 false.

(** Two's complement wrap-around of 64-bit integer arithmetic. *)
Definition wrap (z : Z) : Z := (z + 2 ^ 63) mod 2 ^ 64 - 2 ^ 63.

Inductive Scalar :=
| I64 (z : Z)
| F64 (x : spec_float).

(** The operand of a float operation. *)
Definition to_f64 (a : Scalar) : spec_float :=
  match a with
  | I64 z => f64_of_Z z
  | F64 x => x
  end.

(** [a - b]: 64-bit integer subtraction on two integers, binary64
    subtraction as soon as one operand is a float. *)
Definition sub (a b : Scalar) : Scalar :=
  match a, b with
  | I64 x, I64 y => I64 (wrap (x - y))
  | _, _ => F64 (SFsub prec emax (to_f64 a) (to_f64 b))
  end.

(** [abs(a)]; the absolute value of the least [int64] wraps around to
    itself. *)
Definition abs (a : Scalar) : Scalar :=
  match a with
  | I64 z => I64 (wrap (Z.abs z))
  | F64 x => F64 (SFabs x)
  end.

(** [a >= 0]; false for NaN. *)
Definition ge_zero (a : Scalar) : bool :=
  match a with
  | I64 z => 0 <=? z
  | F64 x => SFleb (S754_zero false) x
  end.

(** [a != 0]; true for NaN. *)
Definition nonzero (a : Scalar) : bool :=
  match a with
  | I64 z => negb (z =? 0)
  | F64 x => negb (SFeqb x (S754_zero false))
  end.

(** [(a / b) * 100]: true division is a binary64 division of the two
    operands read as floats, and does not raise on a zero divisor. *)
Definition percent_of (a b : Scalar) : Scalar :=
  F64 (SFmul prec emax (SFdiv prec emax (to_f64 a) (to_f64 b))
         (f64_of_Z 100)).

(** The exact value [m * 2^e] of a finite binary64. *)
Definition exact_value (m : positive) (e : Z) : Q :=
  (inject_Z (Z.pos m) * Qpower 2 e)%Q.

Definition sign_text (s : bool) : string :=
  if s then "-" else EmptyString.

(** The format specs [,.1f], [,.2f], [.1f] and [.2f] on a binary64. *)
Definition format_f64 (comma : bool) (d : nat) (x : spec_float) : string :=
  match x with
  | S754_nan => "nan"
  | S754_infinity s => sign_text s +:+ "inf"
  | S754_zero s => sign_text s +:+ format_fixed comma d 0
  | S754_finite s m e => sign_text s +:+ format_fixed comma d (exact_value m e)
  end.

(** A NumPy integer under an [f] format spec is converted to a float. *)
Definition format_scalar (comma : bool) (d : nat) (a : Scalar) : string :=
  format_f64 comma d (to_f64 a).

(** The [value] argument of the card: a number or a string. *)
Inductive Value :=
| Num (a : Scalar)
| Str (s : string).

Definition format_number (x : spec_float) : string :=
  if SFleb (f64_of_Z 1000000) (SFabs x) then
    "$" +:+ format_f64 true 1 (SFdiv prec emax x (f64_of_Z 1000000)) +:+ "M"
  else if SFleb (f64_of_Z 1000) (SFabs x) then
    "$" +:+ format_f64 true 1 (SFdiv prec emax x (f64_of_Z 1000)) +:+ "K"
  else format_f64 true 2 x.

(** [isinstance(value, (int, float))] holds for [numpy.float64], which
    subclasses [float], and fails for [numpy.int64]. *)
Definition format_value (value : Value) : string :=
  match value with
  | Num (F64 x) => format_number x
  | Num (I64 z) => str_int z
  | Str s => s
  end.

Definition create_metric_card (title : string) (value : Value)
    (change change_pct : option Scalar) (icon : string) : Card :=
  let value_display := format_value value in
  match change, change_pct with
  | Some change, Some change_pct =>
      let arrow := if ge_zero change then up_arrow else down_arrow in
      {| card_title := title;
         value_display := value_display;
         card_arrow := arrow;
         change_color :=
           if ge_zero change then color_positive else color_negative;
         change_text :=
           arrow +:+ " " +:+ format_scalar true 2 (abs change)
           +:+ " (" +:+ format_scalar false 1 (abs change_pct) +:+ "%)" |}
  | _, _ =>
      {| card_title := title;
         value_display := value_display;
         card_arrow := EmptyString;
         change_color := color_neutral;
         change_text := EmptyString |}
  end.

(** [change_pct = (change / prev) * 100 if prev != 0 else 0]; the [0] of
    the [else] branch is a Python [int], written [I64 0]: the card only
    formats it. *)
Definition pct_change (change prev : Scalar) : Scalar :=
  if nonzero prev then percent_of change prev else I64 0.

(** A delta card: [change = latest - prev], its percent change, and the
    card of the three. *)
Definition delta_card (title : string) (latest prev : Scalar)
    (icon : string) : Card :=
  let change := sub latest prev in
  let change_pct := pct_change change prev in
  create_metric_card title (Num latest) (Some change) (Some change_pct) icon.

(** [latest = s.iloc[-1]] and
    [prev = s.iloc[-2] if len(df) > 1 else latest], for a numeric column
    [s] of the table; a missing entry of a float column is NaN. *)
Definition latest_prev (s : list Scalar) : Result (Scalar * Scalar) :=
  latest ← iloc s (-1);
  prev ← (if 1 <? Z.of_nat (length s) then iloc s (-2) else Ok latest);
  Ok (latest, prev).

(** The "Latest Revenue" card, from the [Total Revenue] column. *)
Definition revenue_card (total_revenue : list Scalar) : Result Card :=
  '(latest_rev, prev_rev) ← latest_prev total_revenue;
  Ok (delta_card "Latest Revenue" latest_rev prev_rev "💰").

(** [target_roe = 15.0] *)
Definition target_roe : Scalar := F64 (f64_of_Z 15).

(** The "ROE vs Target" card, from the latest return on equity: the
    change against the fixed target, the percent change by an unguarded
    division by it. *)
Definition roe_card (latest_roe : Scalar) : Card :=
  create_metric_card "ROE vs Target" (Num latest_roe)
    (Some (sub latest_roe target_roe))
    (Some (percent_of (sub latest_roe target_roe) target_roe)) "🎯".

(** A scalar that is neither NaN nor infinite. *)
Definition is_finite (a : Scalar) : bool :=
  match a with
  | I64 _ | F64 (S754_zero _) | F64 (S754_finite _ _ _) => true
  | F64 _ => false
  end.

(** An integer that [int64] holds. *)
Definition int64_range (z : Z) : Prop := - 2 ^ 63 <= z < 2 ^ 63.

(** [-a] *)
Definition neg (a : Scalar) : Scalar :=
  match a with
  | I64 z => I64 (wrap (- z))
  | F64 x => F64 (SFopp x)
  end.

(** A scalar whose sign can be flipped: any float, and any [int64] but the
    least one. *)
Definition above_min (a : Scalar) : Prop :=
  match a with
  | I64 z => - 2 ^ 63 < z < 2 ^ 63
  | F64 _ => True
  end.

End Np.

(* ================================================================== *)
(** * Part II: properties                                              *)
(* ================================================================== *)

(** ** Formatting depends on the value only *)

Lemma round_half_even_proper (q q' : Q) :
  (q == q')%Q → round_half_even q = round_half_even q'.
Proof.
  intros H. unfold round_half_even.
  rewrite (Qfloor_comp _ _ H).
  assert (Hc : ((q - inject_Z (Qfloor q') ?= 1 # 2)
               = (q' - inject_Z (Qfloor q') ?= 1 # 2))%Q).
  { apply Qcompare_comp; [ rewrite H; reflexivity | reflexivity ]. }
  rewrite Hc. reflexivity.
Qed.

Lemma format_fixed_proper (comma : bool) (d : nat) (q q' : Q) :
  (q == q')%Q → format_fixed comma d q = format_fixed comma d q'.
Proof.
  intros H. unfold format_fixed.
  assert (Hr : round_half_even (Qabs q * inject_Z (10 ^ Z.of_nat d))
             = round_half_even (Qabs q' * inject_Z (10 ^ Z.of_nat d))).
  { apply round_half_even_proper. rewrite H. reflexivity. }
  rewrite Hr.
  destruct (Qlt_le_dec q 0) as [Hq|Hq], (Qlt_le_dec q' 0) as [Hq'|Hq'];
    try reflexivity; exfalso.
  - rewrite H in Hq. exact (Qlt_not_le _ _ Hq Hq').
  - rewrite <- H in Hq'. exact (Qlt_not_le _ _ Hq' Hq).
Qed.

Lemma format_fixed_zero (comma : bool) (q : Q) :
  (q == 0)%Q →
  format_fixed comma 2 q = "0.00" ∧ format_fixed comma 1 q = "0.0".
Proof.
  intros H. rewrite !(format_fixed_proper _ _ q 0 H).
  destruct comma; split; reflexivity.
Qed.

Lemma Qeq_bool_false (x y : Q) : Qeq_bool x y = false → ¬ (x == y)%Q.
Proof.
  intros Hb He. apply Qeq_eq_bool in He. congruence.
Qed.

(** ** Percent change *)


Lemma pct_change_returns (change prev : Float) :
  ∃ r, pct_change change prev = Ok r.
Proof.
  unfold pct_change, fdiv. destruct prev as [p|]; simpl.
  - destruct (Qeq_bool p 0); simpl; [eauto|].
    destruct change; simpl; eauto.
  - eauto.
Qed.

(** ** The value line of a metric card *)

Lemma format_number_cases (q : Q) :
  format_number (Finite q) =
    if Qle_bool (inject_Z 1000000) (Qabs q) then
      "$" +:+ format_fixed true 1 (q / inject_Z 1000000) +:+ "M"
    else if Qle_bool (inject_Z 1000) (Qabs q) then
      "$" +:+ format_fixed true 1 (q / inject_Z 1000) +:+ "K"
    else format_fixed true 2 q.
Proof. reflexivity. Qed.

(** Builtin numbers get the magnitude formatting. *)
Lemma format_value_builtin (title icon : string) (z : Z) (x : Float) :
  value_display (create_metric_card title (PyInt z) None None icon)
  = format_number (of_Z z)
  ∧ value_display (create_metric_card title (PyFloat x) None None icon)
    = format_number x.
Proof. split; reflexivity. Qed.

Lemma Qle_bool_false_lt (a b : Q) : (b < a)%Q → Qle_bool a b = false.
Proof.
  intros Hlt. destruct (Qle_bool a b) eqn:E; [|reflexivity].
  apply Qle_bool_iff in E. exfalso. exact (Qlt_not_le _ _ Hlt E).
Qed.

Lemma format_number_million (q : Q) :
  (inject_Z 1000000 <= Qabs q)%Q →
  format_number (Finite q)
  = "$" +:+ format_fixed true 1 (q / inject_Z 1000000) +:+ "M".
Proof.
  intros Hq. apply Qle_bool_iff in Hq.
  rewrite format_number_cases, Hq. reflexivity.
Qed.

Lemma format_number_thousand (q : Q) :
  (inject_Z 1000 <= Qabs q)%Q → (Qabs q < inject_Z 1000000)%Q →
  format_number (Finite q)
  = "$" +:+ format_fixed true 1 (q / inject_Z 1000) +:+ "K".
Proof.
  intros Hlo Hhi. apply Qle_bool_iff in Hlo.
  rewrite format_number_cases, (Qle_bool_false_lt _ _ Hhi), Hlo.
  reflexivity.
Qed.

Lemma format_number_small (q : Q) :
  (Qabs q < inject_Z 1000)%Q →
  format_number (Finite q) = format_fixed true 2 q.
Proof.
  intros Hhi.
  assert (Hm : (Qabs q < inject_Z 1000000)%Q).
  { eapply Qlt_trans; [exact Hhi|]. reflexivity. }
  rewrite format_number_cases, (Qle_bool_false_lt _ _ Hm),
    (Qle_bool_false_lt _ _ Hhi).
  reflexivity.
Qed.

Lemma format_value_string (title icon s : string) :
  value_display (create_metric_card title (PyObj (PyStr s)) None None icon) = s.
Proof. reflexivity. Qed.

Example format_1_500_000 :
  value_display (create_metric_card "t" (PyInt 1500000) None None "i") = "$1.5M".
Proof. reflexivity. Qed.

Example format_2_500 :
  value_display (create_metric_card "t" (PyInt 2500) None None "i") = "$2.5K".
Proof. reflexivity. Qed.

Example format_42_678 :
  value_display
    (create_metric_card "t" (PyFloat (Finite (42678 # 1000))) None None "i")
  = "42.68".
Proof. reflexivity. Qed.

(** C6 -- the value line at a NumPy integer.  A value read from an
    integer column (here 2,000,000, as [iloc] or [sum] return it) is not an
    instance of [int] or [float]; it takes the [str] branch and is shown as
    its bare digits, where the same number as a builtin [int] or a float is
    shown as "$2.0M". *)
Theorem numpy_integer_value_is_not_formatted :
  value_display
    (create_metric_card "Total Assets (Period)" (item (Some (CInt 2000000)))
       None None "📈") = "2000000"
  ∧ value_display
      (create_metric_card "Total Assets (Period)" (PyInt 2000000)
         None None "📈") = "$2.0M"
  ∧ value_display
      (create_metric_card "Total Assets (Period)"
         (item (Some (CFloat (inject_Z 2000000)))) None None "📈") = "$2.0M".
Proof. repeat split; reflexivity. Qed.

(** ** The delta line of a metric card *)

Lemma up_down_differ : up_arrow ≠ down_arrow.
Proof. discriminate. Qed.

Lemma delta_card_unfold (title icon : string) (value previous : PyValue)
    (l p pct : Float) :
  to_float value = Ok l → to_float previous = Ok p →
  pct_change (fsub l p) p = Ok pct →
  delta_card title value previous icon
  = Ok (create_metric_card title value (Some (fsub l p)) (Some pct) icon).
Proof.
  intros Hl Hp Hpct. unfold delta_card, delta_of.
  rewrite Hl. simpl. rewrite Hp. simpl. rewrite Hpct. reflexivity.
Qed.

(** ** Machine arithmetic of the card *)

Lemma wrap_small (z : Z) : - 2 ^ 63 <= z < 2 ^ 63 → Np.wrap z = z.
Proof.
  unfold Np.wrap.
  change (2 ^ 63) with 9223372036854775808.
  change (2 ^ 64) with 18446744073709551616.
  intros H. rewrite Z.mod_small; lia.
Qed.

Lemma sub_int (x y : Z) :
  - 2 ^ 63 <= x - y < 2 ^ 63 → Np.sub (Np.I64 x) (Np.I64 y) = Np.I64 (x - y).
Proof. intros H. simpl. by rewrite wrap_small. Qed.

Lemma abs_int (z : Z) :
  - 2 ^ 63 < z < 2 ^ 63 → Np.abs (Np.I64 z) = Np.I64 (Z.abs z).
Proof. intros H. simpl. rewrite wrap_small; [reflexivity|lia]. Qed.

Lemma format_int_zero (comma : bool) (d : nat) :
  Np.format_scalar comma d (Np.abs (Np.I64 0))
  = Np.format_f64 comma d (S754_zero false).
Proof. reflexivity. Qed.

(** C7, as amended -- the latest and the previous value come from one
    column, so both are NumPy integers or both are floats, and delta is
    value - previous as NumPy computes it.  For integers whose difference
    lies strictly between -2^63 and 2^63, the arrow is up exactly when
    previous <= value and down otherwise, and the delta line shows
    |value - previous|; for floats the arrow is up exactly when the binary64
    difference is >= 0 and down otherwise (also when it is NaN), and the
    delta line shows its absolute value.  In both cases the line is the
    arrow, the absolute delta under [,.2f] and the absolute percent change
    under [.1f] (0 when previous is 0).  110 over 100 gives
    "↑ 10.00 (10.0%)", 90 over 100 gives "↓ 10.00 (10.0%)", 2001 over
    2000 gives "↑ 1.00 (0.1%)", and 81797 over 1 gives
    "↑ 81,796.00 (8179600.0%)": thousands separators in the delta only. *)
Theorem delta_card_direction_and_text (title icon : string) :
  (∀ value previous : Z,
     - 2 ^ 63 < value - previous < 2 ^ 63 →
     let card := Np.delta_card title (Np.I64 value) (Np.I64 previous) icon in
     (card_arrow card = "↑" ↔ previous <= value)
     ∧ (card_arrow card = "↓" ↔ value < previous)
     ∧ change_text card
       = card_arrow card +:+ " "
         +:+ Np.format_f64 true 2 (Np.f64_of_Z (Z.abs (value - previous)))
         +:+ " ("
         +:+ Np.format_f64 false 1
               (if previous =? 0 then S754_zero false
                else SFabs (SFmul 53 1024
                              (SFdiv 53 1024 (Np.f64_of_Z (value - previous))
                                 (Np.f64_of_Z previous))
                              (Np.f64_of_Z 100)))
         +:+ "%)")
  ∧ (∀ value previous : spec_float,
       let delta := SFsub 53 1024 value previous in
       let card := Np.delta_card title (Np.F64 value) (Np.F64 previous) icon in
       (card_arrow card = "↑" ↔ SFleb (S754_zero false) delta = true)
       ∧ (card_arrow card = "↓" ↔ SFleb (S754_zero false) delta = false)
       ∧ change_text card
         = card_arrow card +:+ " "
           +:+ Np.format_f64 true 2 (SFabs delta)
           +:+ " ("
           +:+ Np.format_f64 false 1
                 (if SFeqb previous (S754_zero false) then S754_zero false
                  else SFabs (SFmul 53 1024 (SFdiv 53 1024 delta previous)
                                (Np.f64_of_Z 100)))
           +:+ "%)")
  ∧ Np.delta_card "Latest Revenue" (Np.F64 (Np.f64_of_Z 110))
      (Np.F64 (Np.f64_of_Z 100)) "💰"
    = {| card_title := "Latest Revenue"; value_display := "110.00";
         card_arrow := "↑"; change_color := color_positive;
         change_text := "↑ 10.00 (10.0%)" |}
  ∧ Np.delta_card "Latest Revenue" (Np.F64 (Np.f64_of_Z 90))
      (Np.F64 (Np.f64_of_Z 100)) "💰"
    = {| card_title := "Latest Revenue"; value_display := "90.00";
         card_arrow := "↓"; change_color := color_negative;
         change_text := "↓ 10.00 (10.0%)" |}
  ∧ change_text (Np.delta_card "Latest Revenue" (Np.I64 110) (Np.I64 100) "💰")
    = "↑ 10.00 (10.0%)"
  ∧ change_text (Np.delta_card "Latest Revenue" (Np.I64 90) (Np.I64 100) "💰")
    = "↓ 10.00 (10.0%)"
  ∧ change_text (Np.delta_card "Latest Revenue" (Np.I64 2001) (Np.I64 2000) "💰")
    = "↑ 1.00 (0.1%)"
  ∧ change_text
      (Np.delta_card "Latest Revenue" (Np.I64 81797) (Np.I64 1) "💰")
    = "↑ 81,796.00 (8179600.0%)".
Proof.
  split; [|split].
  - intros value previous Hr card. subst card. unfold Np.delta_card.
    rewrite sub_int by lia.
    unfold Np.create_metric_card. cbn [card_arrow change_text].
    rewrite abs_int by lia.
    assert (Hpct : Np.format_scalar false 1
                     (Np.abs (Np.pct_change (Np.I64 (value - previous))
                                (Np.I64 previous)))
                   = Np.format_f64 false 1
                       (if previous =? 0 then S754_zero false
                        else SFabs (SFmul 53 1024
                                      (SFdiv 53 1024
                                         (Np.f64_of_Z (value - previous))
                                         (Np.f64_of_Z previous))
                                      (Np.f64_of_Z 100)))).
    { unfold Np.pct_change, Np.nonzero.
      destruct (previous =? 0); reflexivity. }
    rewrite Hpct. unfold Np.ge_zero.
    destruct (0 <=? value - previous) eqn:E.
    + apply Z.leb_le in E. split; [split; [lia|reflexivity]|].
      split; [|reflexivity]. split; [intros H; by apply up_down_differ in H|lia].
    + apply Z.leb_gt in E. split; [split; [|lia]|].
      { intros H. symmetry in H. by apply up_down_differ in H. }
      split; [|reflexivity]. split; [lia|reflexivity].
  - intros value previous delta card. subst delta card. unfold Np.delta_card.
    change (Np.sub (Np.F64 value) (Np.F64 previous))
      with (Np.F64 (SFsub 53 1024 value previous)).
    unfold Np.create_metric_card. cbn [card_arrow change_text].
    assert (Hpct : Np.format_scalar false 1
                     (Np.abs (Np.pct_change
                                (Np.F64 (SFsub 53 1024 value previous))
                                (Np.F64 previous)))
                   = Np.format_f64 false 1
                       (if SFeqb previous (S754_zero false)
                        then S754_zero false
                        else SFabs (SFmul 53 1024
                                      (SFdiv 53 1024
                                         (SFsub 53 1024 value previous)
                                         previous)
                                      (Np.f64_of_Z 100)))).
    { unfold Np.pct_change, Np.nonzero.
      destruct (SFeqb previous (S754_zero false)); reflexivity. }
    rewrite Hpct. unfold Np.ge_zero.
    destruct (SFleb (S754_zero false) (SFsub 53 1024 value previous)).
    + split; [by split|]. split; [|reflexivity].
      split; [intros H; by apply up_down_differ in H|discriminate].
    + split; [split; [|discriminate]|].
      { intros H. symmetry in H. by apply up_down_differ in H. }
      split; [by split|reflexivity].
  - repeat split; vm_compute; reflexivity.
Qed.

(** C7, as stated, fails for NumPy integers when the subtraction or the
    absolute value overflows.  With value 2^63 - 1 and previous -1 the
    difference 2^63 is positive, yet it wraps around to -2^63 and the card
    shows the down arrow; with value -2^63 and previous 0 the absolute
    value of the difference wraps around to itself, and the delta line
    shows a negative number after the arrow. *)
Lemma int64_overflow_counterexample :
  Np.int64_range (2 ^ 63 - 1) ∧ Np.int64_range (-1)
  ∧ 0 <= (2 ^ 63 - 1) - (-1)
  ∧ Np.delta_card "Latest Revenue" (Np.I64 (2 ^ 63 - 1)) (Np.I64 (-1)) "💰"
    = {| card_title := "Latest Revenue";
         value_display := "9223372036854775807";
         card_arrow := "↓"; change_color := color_negative;
         change_text :=
           "↓ -9,223,372,036,854,775,808.00 (922337203685477580800.0%)" |}
  ∧ Np.int64_range (- 2 ^ 63) ∧ Np.int64_range 0
  ∧ change_text
      (Np.delta_card "Latest Revenue" (Np.I64 (- 2 ^ 63)) (Np.I64 0) "💰")
    = "↓ -9,223,372,036,854,775,808.00 (0.0%)".
Proof.
  repeat split; try (vm_compute; congruence); vm_compute; reflexivity.
Qed.

(** ** Latest and previous value *)

Lemma date_leb_refl (d : Date) : date_leb d d = true.
Proof.
  unfold date_leb, date_key.
  rewrite !Z.eqb_refl, Z.leb_refl, !orb_true_r. reflexivity.
Qed.

Lemma date_leb_trans (a b c : Date) :
  date_leb a b = true → date_leb b c = true → date_leb a c = true.
Proof.
  unfold date_leb, date_key.
  generalize (date_year a) (month_number (date_month a)) (date_day a)
             (date_year b) (month_number (date_month b)) (date_day b)
             (date_year c) (month_number (date_month c)) (date_day c).
  intros ya ma da yb mb db yc mc dc.
  rewrite !orb_true_iff, !andb_true_iff, !orb_true_iff, !andb_true_iff.
  rewrite !Z.ltb_lt, !Z.eqb_eq, !Z.leb_le. lia.
Qed.

Lemma not_later_trans (a b c : Row) :
  not_later a b → not_later b c → not_later a c.
Proof.
  intros (d1 & d2 & H1 & H2 & H12) (d2' & d3 & H2' & H3 & H23).
  rewrite H2 in H2'. injection H2' as <-.
  exists d1, d3. repeat split; eauto using date_leb_trans.
Qed.

Lemma ascending_cons (a b : Row) (l : list Row) :
  dates_ascending (a :: b :: l) = true →
  not_later a b ∧ dates_ascending (b :: l) = true.
Proof.
  simpl. intros H. apply andb_true_iff in H as [H1 H2]. split; [|exact H2].
  unfold not_later.
  destruct (row_date a) as [da|]; [|discriminate].
  destruct (row_date b) as [db|]; [|discriminate].
  exists da, db. by repeat split.
Qed.

Lemma ascending_before_last (l : list Row) (y : Row) :
  dates_ascending (l ++ [y]) = true → ∀ r, r ∈ l → not_later r y.
Proof.
  induction l as [|a l IH]; intros Hasc r Hr.
  - inversion Hr.
  - destruct l as [|b l].
    + apply ascending_cons in Hasc as [Hab _].
      apply list_elem_of_singleton in Hr. by subst.
    + change ((a :: b :: l) ++ [y]) with (a :: b :: (l ++ [y])) in Hasc.
      apply ascending_cons in Hasc as [Hab Hrest].
      assert (Hby : not_later b y) by (apply IH; [exact Hrest|left]).
      apply elem_of_cons in Hr as [->|Hr].
      * eauto using not_later_trans.
      * apply IH; assumption.
Qed.

Lemma ascending_up_to_last (l : list Row) (x y : Row) :
  dates_ascending (l ++ [x; y]) = true →
  ∀ r, r ∈ l ++ [x; y] → not_later r y.
Proof.
  intros Hasc r Hr.
  replace (l ++ [x; y]) with ((l ++ [x]) ++ [y]) in *
    by (rewrite <- app_assoc; reflexivity).
  pose proof (ascending_before_last _ _ Hasc) as Hall.
  apply elem_of_app in Hr as [Hr|Hr]; [by apply Hall|].
  apply list_elem_of_singleton in Hr. subst r.
  destruct (Hall x) as (dx & dy & _ & Hy & _).
  { apply elem_of_app. right. left. }
  exists dy, dy. repeat split; auto using date_leb_refl.
Qed.

Lemma ascending_cons_intro (a b : Row) (l : list Row) :
  not_later a b → dates_ascending (b :: l) = true →
  dates_ascending (a :: b :: l) = true.
Proof.
  intros (da & db & Ha & Hb & Hab) Hrest.
  change (dates_ascending (a :: b :: l))
    with (match row_date a, row_date b with
          | Some a, Some b => date_leb a b
          | _, _ => false
          end && dates_ascending (b :: l)).
  rewrite Ha, Hb, Hab, Hrest. reflexivity.
Qed.

Lemma ascending_prefix (l : list Row) (y : Row) :
  dates_ascending (l ++ [y]) = true → dates_ascending l = true.
Proof.
  induction l as [|a l IH]; [reflexivity|].
  destruct l as [|b l]; [reflexivity|].
  change ((a :: b :: l) ++ [y]) with (a :: b :: (l ++ [y])).
  intros Hasc. apply ascending_cons in Hasc as [Hab Hrest].
  apply ascending_cons_intro; [exact Hab|]. apply IH. exact Hrest.
Qed.

Lemma iloc_from_end {A} (l : list A) (k : nat) (x : A) :
  (0 < k)%nat → l !! (length l - k)%nat = Some x → (k <= length l)%nat →
  iloc l (- Z.of_nat k) = Ok x.
Proof.
  intros Hk Hx Hle. unfold iloc.
  assert (H1 : (- Z.of_nat k <? 0) = true) by (apply Z.ltb_lt; lia).
  rewrite H1.
  assert (H2 : (0 <=? Z.of_nat (length l) + - Z.of_nat k) = true)
    by (apply Z.leb_le; lia).
  assert (H3 : (Z.of_nat (length l) + - Z.of_nat k <? Z.of_nat (length l))
               = true) by (apply Z.ltb_lt; lia).
  rewrite H2, H3. simpl.
  replace (Z.to_nat (Z.of_nat (length l) + - Z.of_nat k))
    with (length l - k)%nat by lia.
  rewrite Hx. reflexivity.
Qed.

Lemma iloc_last {A} (l : list A) (x : A) : iloc (l ++ [x]) (-1) = Ok x.
Proof.
  apply (iloc_from_end _ 1); [lia| |rewrite length_app; simpl; lia].
  rewrite length_app. simpl.
  rewrite lookup_app_r by lia.
  replace (length l + 1 - 1 - length l)%nat with 0%nat by lia. reflexivity.
Qed.

Lemma iloc_second_last {A} (l : list A) (x y : A) :
  iloc (l ++ [x; y]) (-2) = Ok x.
Proof.
  apply (iloc_from_end _ 2); [lia| |rewrite length_app; simpl; lia].
  rewrite length_app. simpl.
  rewrite lookup_app_r by lia.
  replace (length l + 2 - 2 - length l)%nat with 0%nat by lia. reflexivity.
Qed.

Lemma getitem_present (df : DataFrame) (col : string) :
  col ∈ columns df → getitem df col = Ok ((.!! col) <$> rows df).
Proof. intros H. unfold getitem. by rewrite bool_decide_eq_true_2. Qed.

Lemma getitem_absent (df : DataFrame) (col : string) :
  col ∉ columns df → getitem df col = Raise (KeyError col).
Proof. intros H. unfold getitem. by rewrite bool_decide_eq_false_2. Qed.

Lemma last_two_rows {A} (l : list A) :
  (2 <= length l)%nat → ∃ front x y, l = front ++ [x; y].
Proof.
  intros Hlen.
  destruct (decide (l = [])) as [->|Hne]; [simpl in Hlen; lia|].
  destruct (exists_last Hne) as (l1 & y & ->).
  rewrite length_app in Hlen. simpl in Hlen.
  destruct (decide (l1 = [])) as [->|Hne1]; [simpl in Hlen; lia|].
  destruct (exists_last Hne1) as (front & x & ->).
  exists front, x, y. rewrite <- app_assoc. reflexivity.
Qed.

Lemma item_reads (c : option Cell) :
  (∀ q, c = Some (CFloat q) → item c = PyFloat (Finite q))
  ∧ (∀ z, c = Some (CInt z) → item c = PyObj (NpInt z))
  ∧ (c = None → item c = PyFloat NaN).
Proof. repeat split; by intros; subst. Qed.

(** C9 -- in a table of at least two rows ordered ascending by Date, the
    latest value is read from the last row, which no row is dated after,
    and the previous value from the row just before it, which no earlier
    row is dated after.  The value read is the number the row holds in the
    column: the float of a float cell, the NumPy integer of an integer
    cell, NaN for a missing entry. *)
Theorem latest_and_previous_by_date (df : DataFrame) (col : string) :
  (2 <= length (rows df))%nat →
  col ∈ columns df →
  dates_ascending (rows df) = true →
  ∃ front r_prev r_last latest previous,
    rows df = front ++ [r_prev; r_last]
    ∧ latest_prev df col = Ok (latest, previous)
    ∧ ((∀ q, r_last !! col = Some (CFloat q) → latest = PyFloat (Finite q))
       ∧ (∀ z, r_last !! col = Some (CInt z) → latest = PyObj (NpInt z))
       ∧ (r_last !! col = None → latest = PyFloat NaN))
    ∧ ((∀ q, r_prev !! col = Some (CFloat q) → previous = PyFloat (Finite q))
       ∧ (∀ z, r_prev !! col = Some (CInt z) → previous = PyObj (NpInt z))
       ∧ (r_prev !! col = None → previous = PyFloat NaN))
    ∧ (∀ r, r ∈ rows df → not_later r r_last)
    ∧ not_later r_prev r_last
    ∧ (∀ r, r ∈ front ++ [r_prev] → not_later r r_prev).
Proof.
  intros Hlen Hcol Hasc.
  destruct (last_two_rows _ Hlen) as (front & x & y & Hrows).
  exists front, x, y, (item (y !! col)), (item (x !! col)).
  split; [exact Hrows|].
  rewrite Hrows in Hasc.
  pose proof (ascending_up_to_last _ _ _ Hasc) as Hmax.
  split; [|split; [apply item_reads|split; [apply item_reads|]]].
  2: split; [|split].
  - unfold latest_prev. rewrite getitem_present by exact Hcol.
    unfold len. rewrite Hrows, fmap_app. simpl.
    replace (front ++ [x; y]) with ((front ++ [x]) ++ [y])
      by (rewrite <- app_assoc; reflexivity).
    rewrite length_app.
    replace (((.!! col) <$> front) ++ [x !! col; y !! col])
      with ((((.!! col) <$> front) ++ [x !! col]) ++ [y !! col])
      by (rewrite <- app_assoc; reflexivity).
    rewrite iloc_last. simpl.
    replace (1 <? Z.of_nat (length (front ++ [x]) + 1)) with true.
    2:{ symmetry. apply Z.ltb_lt. rewrite length_app. simpl. lia. }
    rewrite <- app_assoc. simpl. rewrite iloc_second_last. reflexivity.
  - intros r Hr. apply Hmax. by rewrite <- Hrows.
  - apply Hmax. apply elem_of_app. right. left.
  - intros r Hr.
    replace (front ++ [x; y]) with ((front ++ [x]) ++ [y]) in Hasc
      by (rewrite <- app_assoc; reflexivity).
    apply ascending_prefix in Hasc.
    destruct front as [|a front'].
    + apply list_elem_of_singleton in Hr. subst r.
      destruct (Hmax x) as (dx & dy & Hx & _ & _); [left|].
      exists dx, dx. repeat split; auto using date_leb_refl.
    + destruct (exists_last (l := a :: front')) as (f2 & w & Hf2);
        [discriminate|].
      rewrite Hf2 in *. rewrite <- app_assoc in Hasc, Hr. simpl in Hasc, Hr.
      by apply (ascending_up_to_last _ _ _ Hasc).
Qed.

Lemma latest_and_previous_by_date_witness :
  (∃ front r_prev r_last latest previous,
     rows two_dated_rows = front ++ [r_prev; r_last]
     ∧ latest_prev two_dated_rows "Total Revenue" = Ok (latest, previous)
     ∧ ((∀ q, r_last !! "Total Revenue" = Some (CFloat q) →
              latest = PyFloat (Finite q))
        ∧ (∀ z, r_last !! "Total Revenue" = Some (CInt z) →
                latest = PyObj (NpInt z))
        ∧ (r_last !! "Total Revenue" = None → latest = PyFloat NaN))
     ∧ ((∀ q, r_prev !! "Total Revenue" = Some (CFloat q) →
              previous = PyFloat (Finite q))
        ∧ (∀ z, r_prev !! "Total Revenue" = Some (CInt z) →
                previous = PyObj (NpInt z))
        ∧ (r_prev !! "Total Revenue" = None → previous = PyFloat NaN))
     ∧ (∀ r, r ∈ rows two_dated_rows → not_later r r_last)
     ∧ not_later r_prev r_last
     ∧ (∀ r, r ∈ front ++ [r_prev] → not_later r r_prev))
  ∧ latest_prev two_dated_rows "Total Revenue"
    = Ok (PyFloat (Finite (inject_Z 110)), PyFloat (Finite (inject_Z 100))).
Proof.
  split; [|vm_compute; reflexivity].
  apply (latest_and_previous_by_date two_dated_rows "Total Revenue").
  - simpl. lia.
  - simpl. right. left.
  - vm_compute. reflexivity.
Defined.

Lemma latest_prev_single (df : DataFrame) (col : string) (r : Row) :
  rows df = [r] → col ∈ columns df →
  latest_prev df col = Ok (item (r !! col), item (r !! col)).
Proof.
  intros Hrows Hcol. unfold latest_prev.
  rewrite getitem_present by exact Hcol.
  unfold len. rewrite Hrows. reflexivity.
Qed.

(** ** Conversion of an integer to binary64 *)

Lemma digits2_size (p : positive) : digits2_pos p = Pos.size p.
Proof. induction p as [p IH|p IH|]; simpl; by rewrite ?IH. Qed.

Lemma size_lower_bound (p : positive) :
  2 ^ (Z.pos (Pos.size p) - 1) <= Z.pos p.
Proof.
  pose proof (Pos.size_le p) as H.
  apply Pos2Z.pos_le_pos in H. rewrite Pos2Z.inj_pow in H.
  replace (Z.pos (Pos.size p)) with (Z.succ (Z.pos (Pos.size p) - 1)) in H
    by lia.
  rewrite Z.pow_succ_r in H by lia.
  change (Z.pos p~0) with (2 * Z.pos p) in H. lia.
Qed.

Lemma shr_1_quot2 (mrs : shr_record) :
  shr_m (shr_1 mrs) = Z.quot2 (shr_m mrs).
Proof. destruct mrs as [[|[]|[]] r s]; reflexivity. Qed.

Lemma iter_pos_iter {A} (f : A → A) (p : positive) (x : A) :
  SpecFloat.iter_pos f p x = Pos.iter f x p.
Proof.
  revert x. induction p as [p IH|p IH|]; intros x; simpl.
  - by rewrite !IH, !Pos.iter_swap.
  - by rewrite !IH.
  - reflexivity.
Qed.

Lemma quot2_lower_bound (j a : Z) :
  0 <= j → 2 ^ (j + 1) <= a → 2 ^ j <= Z.quot2 a.
Proof.
  intros Hj Ha.
  assert (Hpos : 0 < 2 ^ j) by (apply Z.pow_pos_nonneg; lia).
  rewrite Z.pow_add_r, Z.pow_1_r in Ha by lia.
  rewrite Zquot2_quot, Z.quot_div_nonneg by lia.
  apply Z.div_le_lower_bound; lia.
Qed.

Lemma shr_iter_lower_bound (n : nat) (j : Z) (mrs : shr_record) :
  0 <= j → 2 ^ (Z.of_nat n + j) <= shr_m mrs →
  2 ^ j <= shr_m (Nat.iter n shr_1 mrs).
Proof.
  revert j. induction n as [|n IH]; intros j Hj H.
  - exact H.
  - simpl. rewrite shr_1_quot2. apply quot2_lower_bound; [exact Hj|].
    apply IH; [lia|].
    replace (Z.of_nat n + (j + 1)) with (Z.of_nat (S n) + j) by lia.
    exact H.
Qed.

Lemma shr_positive (k : positive) (mrs : shr_record) :
  2 ^ Z.pos k <= shr_m mrs → 1 <= shr_m (SpecFloat.iter_pos shr_1 k mrs).
Proof.
  intros H. rewrite iter_pos_iter, Pos2Nat.inj_iter.
  apply (shr_iter_lower_bound _ 0); [lia|].
  by rewrite Z.add_0_r, positive_nat_Z.
Qed.

Lemma shr_fexp_positive (m e : Z) (l : location) :
  1 <= m → -1074 <= e →
  1 <= shr_m (shr_fexp 53 1024 m e l).1
  ∧ -1074 <= (shr_fexp 53 1024 m e l).2.
Proof.
  intros Hm He. destruct m as [|p|p]; try lia.
  assert (Hrec : shr_m (shr_record_of_loc (Z.pos p) l) = Z.pos p)
    by (by destruct l as [|[]]).
  unfold shr_fexp, shr.
  destruct (fexp 53 1024 (Zdigits2 (Z.pos p) + e) - e) as [|k|k] eqn:En;
    simpl; rewrite ?Hrec; try lia.
  split; [|lia].
  apply shr_positive. rewrite Hrec.
  unfold fexp, emin, Zdigits2 in En. rewrite digits2_size in En.
  pose proof (size_lower_bound p) as Hsize.
  assert (Hk : Z.pos k <= Z.pos (Pos.size p) - 1) by lia.
  etransitivity; [|exact Hsize].
  apply Z.pow_le_mono_r; lia.
Qed.

Lemma round_nearest_even_positive (m : Z) (l : location) :
  1 <= m → 1 <= round_nearest_even m l.
Proof.
  intros H. destruct l as [|[]]; simpl; try lia.
  destruct (Z.even m); lia.
Qed.

Lemma binary_round_aux_nonzero (s : bool) (m e : Z) (l : location) :
  1 <= m → -1074 <= e →
  ∃ m' e', binary_round_aux 53 1024 s m e l = S754_finite s m' e'
           ∨ binary_round_aux 53 1024 s m e l = S754_infinity s.
Proof.
  intros Hm He. unfold binary_round_aux.
  destruct (shr_fexp_positive m e l Hm He) as [H1 H2].
  destruct (shr_fexp 53 1024 m e l) as [mrs' e'']. simpl in H1, H2.
  pose proof (round_nearest_even_positive _ (loc_of_shr_record mrs') H1) as Hr.
  destruct (shr_fexp_positive _ e'' loc_Exact Hr H2) as [H3 _].
  destruct (shr_fexp 53 1024 _ e'' loc_Exact) as [mrs2 e2]. simpl in H3.
  destruct (shr_m mrs2) as [|p|p]; try lia.
  exists p, e2. destruct (e2 <=? 1024 - 53); auto.
Qed.

Lemma f64_of_Z_nonzero (z : Z) :
  z ≠ 0 →
  ∃ s m e, Np.f64_of_Z z = S754_finite s m e ∨ Np.f64_of_Z z = S754_infinity s.
Proof.
  intros Hz. unfold Np.f64_of_Z, binary_normalize, binary_round, shl_align.
  destruct z as [|p|p]; [done| |].
  - exists false.
    destruct (fexp Np.prec Np.emax (Z.pos (digits2_pos p) + 0) - 0)
      as [|k|k] eqn:En;
      apply (binary_round_aux_nonzero false); try lia.
    unfold fexp, emin, Np.prec, Np.emax in *. lia.
  - exists true.
    destruct (fexp Np.prec Np.emax (Z.pos (digits2_pos p) + 0) - 0)
      as [|k|k] eqn:En;
      apply (binary_round_aux_nonzero true); try lia.
    unfold fexp, emin, Np.prec, Np.emax in *. lia.
Qed.

(** ** A table with a single row *)

Lemma hundred_finite :
  ∃ m e, Np.f64_of_Z 100 = S754_finite false m e.
Proof. eexists _, _. vm_compute. reflexivity. Qed.

Lemma sub_self (v : Np.Scalar) :
  Np.is_finite v = true →
  Np.sub v v = match v with
               | Np.I64 _ => Np.I64 0
               | Np.F64 _ => Np.F64 (S754_zero false)
               end.
Proof.
  destruct v as [z|[s|s| |s m e]]; try discriminate; intros _.
  - simpl. by rewrite Z.sub_diag.
  - by destruct s.
  - unfold Np.sub, Np.to_f64, SFsub. cbv zeta. by rewrite Z.sub_diag.
Qed.

Lemma zero_over_nonzero (s0 : bool) (y : spec_float) :
  (∃ s m e, y = S754_finite s m e ∨ y = S754_infinity s) →
  ∃ s', SFmul 53 1024 (SFdiv 53 1024 (S754_zero s0) y) (Np.f64_of_Z 100)
        = S754_zero s'.
Proof.
  intros (s & m & e & [->| ->]); destruct hundred_finite as (m' & e' & ->);
    eexists; reflexivity.
Qed.

Lemma pct_change_of_zero (v : Np.Scalar) :
  Np.is_finite v = true →
  Np.pct_change (Np.sub v v) v = Np.I64 0
  ∨ ∃ s, Np.pct_change (Np.sub v v) v = Np.F64 (S754_zero s).
Proof.
  intros Hv. rewrite (sub_self v Hv).
  destruct v as [z|[s|s| |s m e]]; try discriminate.
  - unfold Np.pct_change, Np.nonzero.
    destruct (z =? 0) eqn:E; [by left|right].
    apply Z.eqb_neq in E.
    destruct (zero_over_nonzero false (Np.f64_of_Z z) (f64_of_Z_nonzero z E))
      as [s' Hs'].
    exists s'. unfold Np.percent_of. simpl negb. cbv iota.
    change (Np.to_f64 (Np.I64 0)) with (S754_zero false).
    unfold Np.to_f64. by rewrite <- Hs'.
  - left. reflexivity.
  - right.
    destruct (zero_over_nonzero false (S754_finite s m e)) as [s' Hs'];
      [by exists s, m, e; left|].
    exists s'. unfold Np.pct_change, Np.nonzero, Np.percent_of, Np.to_f64.
    replace (SFeqb (S754_finite s m e) (S754_zero false)) with false
      by (by destruct s).
    simpl negb. cbv iota. by rewrite <- Hs'.
Qed.

Lemma zero_delta_line (title icon : string) (value : Np.Value)
    (change pct : Np.Scalar) :
  change = Np.I64 0 ∨ change = Np.F64 (S754_zero false) →
  pct = Np.I64 0 ∨ (∃ s, pct = Np.F64 (S754_zero s)) →
  let card := Np.create_metric_card title value (Some change) (Some pct) icon in
  card_arrow card = "↑" ∧ change_color card = color_positive
  ∧ change_text card = "↑ 0.00 (0.0%)".
Proof.
  intros [->| ->] [->|[s ->]]; try destruct s; repeat split; reflexivity.
Qed.

(** C10, as amended -- in a table with exactly one row whose value in the
    column is a finite number (an integer, or a float that is neither NaN
    nor infinite), the previous value is the latest value, the change is 0,
    the percent change is 0, and the card has a delta line: the up arrow
    followed by "0.00 (0.0%)". *)
Theorem single_row_delta_card (title icon : string) (v : Np.Scalar) :
  Np.is_finite v = true →
  Np.latest_prev [v] = Ok (v, v)
  ∧ (Np.sub v v = Np.I64 0 ∨ Np.sub v v = Np.F64 (S754_zero false))
  ∧ (Np.pct_change (Np.sub v v) v = Np.I64 0
     ∨ ∃ s, Np.pct_change (Np.sub v v) v = Np.F64 (S754_zero s))
  ∧ Np.revenue_card [v] = Ok (Np.delta_card "Latest Revenue" v v "💰")
  ∧ card_arrow (Np.delta_card title v v icon) = "↑"
  ∧ change_color (Np.delta_card title v v icon) = color_positive
  ∧ change_text (Np.delta_card title v v icon) = "↑ 0.00 (0.0%)".
Proof.
  intros Hv.
  assert (Hchange : Np.sub v v = Np.I64 0
                    ∨ Np.sub v v = Np.F64 (S754_zero false)).
  { rewrite (sub_self v Hv). destruct v; auto. }
  pose proof (pct_change_of_zero v Hv) as Hpct.
  split; [reflexivity|]. split; [exact Hchange|]. split; [exact Hpct|].
  split; [reflexivity|].
  exact (zero_delta_line title icon (Np.Num v) _ _ Hchange Hpct).
Qed.

Lemma single_row_delta_card_witness :
  (Np.latest_prev [Np.F64 (Np.f64_of_Z 110)]
   = Ok (Np.F64 (Np.f64_of_Z 110), Np.F64 (Np.f64_of_Z 110))
   ∧ (Np.sub (Np.F64 (Np.f64_of_Z 110)) (Np.F64 (Np.f64_of_Z 110)) = Np.I64 0
      ∨ Np.sub (Np.F64 (Np.f64_of_Z 110)) (Np.F64 (Np.f64_of_Z 110))
        = Np.F64 (S754_zero false))
   ∧ (Np.pct_change
        (Np.sub (Np.F64 (Np.f64_of_Z 110)) (Np.F64 (Np.f64_of_Z 110)))
        (Np.F64 (Np.f64_of_Z 110)) = Np.I64 0
      ∨ ∃ s, Np.pct_change
               (Np.sub (Np.F64 (Np.f64_of_Z 110)) (Np.F64 (Np.f64_of_Z 110)))
               (Np.F64 (Np.f64_of_Z 110)) = Np.F64 (S754_zero s))
   ∧ Np.revenue_card [Np.F64 (Np.f64_of_Z 110)]
     = Ok (Np.delta_card "Latest Revenue" (Np.F64 (Np.f64_of_Z 110))
             (Np.F64 (Np.f64_of_Z 110)) "💰")
   ∧ card_arrow (Np.delta_card "Latest Revenue" (Np.F64 (Np.f64_of_Z 110))
                   (Np.F64 (Np.f64_of_Z 110)) "💰") = "↑"
   ∧ change_color (Np.delta_card "Latest Revenue" (Np.F64 (Np.f64_of_Z 110))
                     (Np.F64 (Np.f64_of_Z 110)) "💰") = color_positive
   ∧ change_text (Np.delta_card "Latest Revenue" (Np.F64 (Np.f64_of_Z 110))
                    (Np.F64 (Np.f64_of_Z 110)) "💰") = "↑ 0.00 (0.0%)")
  ∧ Np.revenue_card [Np.F64 (Np.f64_of_Z 110)]
    = Ok {| card_title := "Latest Revenue"; value_display := "110.00";
            card_arrow := "↑"; change_color := color_positive;
            change_text := "↑ 0.00 (0.0%)" |}
  ∧ Np.revenue_card [Np.I64 81797]
    = Ok {| card_title := "Latest Revenue"; value_display := "81797";
            card_arrow := "↑"; change_color := color_positive;
            change_text := "↑ 0.00 (0.0%)" |}.
Proof.
  split; [|split; vm_compute; reflexivity].
  apply (single_row_delta_card "Latest Revenue" "💰"
           (Np.F64 (Np.f64_of_Z 110))).
  reflexivity.
Defined.

(** C10, as stated, fails on a single row whose revenue is missing or
    infinite: the table has one row, the previous value is the latest
    value, yet the change is NaN (also for an infinity, whose difference
    with itself is NaN) and the card shows the down arrow. *)
Lemma single_row_missing_value_counterexample :
  Np.latest_prev [Np.F64 S754_nan] = Ok (Np.F64 S754_nan, Np.F64 S754_nan)
  ∧ Np.sub (Np.F64 S754_nan) (Np.F64 S754_nan) = Np.F64 S754_nan
  ∧ Np.revenue_card [Np.F64 S754_nan]
    = Ok {| card_title := "Latest Revenue"; value_display := "nan";
            card_arrow := "↓"; change_color := color_negative;
            change_text := "↓ nan (nan%)" |}
  ∧ Np.sub (Np.F64 (S754_infinity false)) (Np.F64 (S754_infinity false))
    = Np.F64 S754_nan
  ∧ Np.revenue_card [Np.F64 (S754_infinity false)]
    = Ok {| card_title := "Latest Revenue"; value_display := "$infM";
            card_arrow := "↓"; change_color := color_negative;
            change_text := "↓ nan (nan%)" |}.
Proof. repeat split; vm_compute; reflexivity. Qed.

(** ** Loading from a missing file *)

Lemma load_financial_missing (env : Env) :
  read_csv env financial_path = Raise FileNotFoundError →
  load_financial_data env
  = (Ok empty_frame,
     [StError "Financial data file not found at: financials_cleaned_for_plots.csv"]).
Proof. intros H. unfold load_financial_data. rewrite H. reflexivity. Qed.

Lemma load_commodities_missing (env : Env) :
  read_csv env commodities_path = Raise FileNotFoundError →
  load_commodities_data env
  = (Ok empty_frame,
     [StError "Commodities data file not found at: commodities.csv"]).
Proof. intros H. unfold load_commodities_data. rewrite H. reflexivity. Qed.

Lemma load_sentiment_missing (env : Env) :
  read_csv env sentiment_path = Raise FileNotFoundError →
  load_sentiment_data env
  = (Ok empty_frame, [StError "Sentiment data file not found at: senti.csv"]).
Proof. intros H. unfold load_sentiment_data. rewrite H. reflexivity. Qed.

Lemma load_data_files_missing (env : Env) :
  load_data (files_missing env)
  = (Ok no_data,
     [StError "Financial data file not found at: financials_cleaned_for_plots.csv";
      StError "Commodities data file not found at: commodities.csv";
      StError "Sentiment data file not found at: senti.csv"]).
Proof. reflexivity. Qed.

(** The four guarded pages show a warning on an empty table. *)
Lemma guarded_pages_on_no_data (env : Env) (sel : Selection) :
  render env FinancialMetrics sel no_data
  = (no_data, Ok [StTitle "Financial Performance Dashboard";
                  StWarning "No financial data available"])
  ∧ render env DataExplorer sel no_data
    = (no_data, Ok [StTitle "Financial Data Explorer";
                    StWarning "No financial data available"])
  ∧ render env CommoditiesMacro sel no_data
    = (no_data, Ok [StTitle "Commodities & Macroeconomic Factors Dashboard";
                    StWarning "No commodities data available"])
  ∧ render env NewsSentiments sel no_data
    = (no_data, Ok [StTitle "News Sentiment Analysis";
                    StWarning "No sentiment data loaded"]).
Proof. repeat split; reflexivity. Qed.

(** C3 -- on a disk without input files every loader returns the empty
    table without raising and reports through [st.error]; the four guarded
    pages then render a warning, but the Filtered Visualizations page,
    which has no such guard, ends in [KeyError: 'Date']. *)
Theorem filtered_page_raises_without_files (env : Env) (sel : Selection) :
  load_financial_data (files_missing env)
  = (Ok empty_frame,
     [StError "Financial data file not found at: financials_cleaned_for_plots.csv"])
  ∧ load_commodities_data (files_missing env)
    = (Ok empty_frame,
       [StError "Commodities data file not found at: commodities.csv"])
  ∧ load_sentiment_data (files_missing env)
    = (Ok empty_frame, [StError "Sentiment data file not found at: senti.csv"])
  ∧ (∀ page, page ≠ FilteredVisualizations →
       ∃ out, run_script (files_missing env) page sel = Ok out)
  ∧ run_script (files_missing env) FilteredVisualizations sel
    = Raise (KeyError "Date").
Proof.
  split; [reflexivity|]. split; [reflexivity|]. split; [reflexivity|].
  split.
  - intros page Hpage. unfold run_script.
    rewrite load_data_files_missing.
    destruct page; try congruence; eexists; reflexivity.
  - reflexivity.
Qed.

(** ** Resolving the sentiment column *)





Example scored_sentiment_resolves_to_sentiment :
  first_present possible_sentiment_cols (columns scored_sentiment)
  = Some "sentiment".
Proof. reflexivity. Qed.


(** ** What a page does to the loaded tables *)

Lemma add_column_present (col : string) (cols : list string) :
  col ∈ cols → add_column col cols = cols.
Proof. intros H. unfold add_column. by rewrite bool_decide_eq_true_2. Qed.

Lemma add_column_absent (col : string) (cols : list string) :
  col ∉ cols → add_column col cols = cols ++ [col].
Proof. intros H. unfold add_column. by rewrite bool_decide_eq_false_2. Qed.

Lemma add_column_elem (col c : string) (cols : list string) :
  c ∈ add_column col cols ↔ c ∈ cols ∨ c = col.
Proof.
  destruct (decide (col ∈ cols)) as [Hin|Hout].
  - rewrite add_column_present by exact Hin. split; [auto|].
    intros [H| ->]; assumption.
  - rewrite add_column_absent by exact Hout.
    rewrite elem_of_app, list_elem_of_singleton. reflexivity.
Qed.

Lemma add_column_idem (col : string) (cols : list string) :
  add_column col (add_column col cols) = add_column col cols.
Proof.
  apply add_column_present. apply add_column_elem. by right.
Qed.

Lemma setitem_scalar_idem (df : DataFrame) (col : string) (c : Cell) :
  setitem_scalar (setitem_scalar df col c) col c = setitem_scalar df col c.
Proof.
  unfold setitem_scalar. simpl. f_equal.
  - apply add_column_idem.
  - rewrite <- list_fmap_compose. apply list_fmap_ext.
    intros i r _. simpl. apply insert_insert_eq.
Qed.

Lemma tag_sources_idem (g : Globals) :
  tag_sources (tag_sources g) = tag_sources g.
Proof.
  unfold tag_sources. simpl. by rewrite !setitem_scalar_idem.
Qed.

Lemma setitem_scalar_tagged (tag : string) (df : DataFrame) :
  tagged_copy tag df (setitem_scalar df "source" (CStr tag)).
Proof.
  unfold tagged_copy, setitem_scalar. simpl.
  split; [reflexivity|]. split; [apply length_fmap|].
  intros i r' Hr'. rewrite list_lookup_fmap in Hr'.
  destruct (rows df !! i) as [r|] eqn:Hr; [|discriminate].
  simpl in Hr'. injection Hr' as <-. split.
  - apply lookup_insert_eq.
  - exists r. split; [reflexivity|]. intros col Hcol.
    by apply lookup_insert_ne.
Qed.

(** C2, as amended -- the four guarded pages leave the three loaded tables
    as they are.  The Filtered Visualizations page writes the source tag
    into the financial and commodities tables themselves: each gets the
    column [source], set on every row, and nothing else of either table
    changes -- the derived year and month columns exist only on the
    combined copy -- and the sentiment table is untouched.  Rendering the
    page again, with any selection, leaves the tables as the first
    rendering left them. *)
Theorem render_effect_on_tables (env : Env) (page : Page) (sel : Selection)
    (g : Globals) :
  match page with
  | FilteredVisualizations =>
      tagged_copy "financial" (financial_df g)
        (financial_df (render env page sel g).1)
      ∧ tagged_copy "commodities" (commodities_df g)
          (commodities_df (render env page sel g).1)
      ∧ sentiment_df (render env page sel g).1 = sentiment_df g
      ∧ ∀ sel', (render env page sel' (render env page sel g).1).1
                = (render env page sel g).1
  | _ => (render env page sel g).1 = g
  end.
Proof.
  destruct page; try reflexivity. simpl.
  split; [apply setitem_scalar_tagged|].
  split; [apply setitem_scalar_tagged|].
  split; [reflexivity|].
  intros _. apply tag_sources_idem.
Qed.

(** C2, as stated, fails: after the Filtered Visualizations page the
    financial and commodities tables carry a column they were not loaded
    with. *)
Lemma source_tag_counterexample :
  columns (financial_df sample_globals) = ["Date"; "Total Revenue"]
  ∧ columns (financial_df
               (render (quiet_env false) FilteredVisualizations
                  default_selection sample_globals).1)
    = ["Date"; "Total Revenue"; "source"]
  ∧ columns (commodities_df
               (render (quiet_env false) FilteredVisualizations
                  default_selection sample_globals).1)
    = ["Date"; "CPI"; "source"]
  ∧ (render (quiet_env false) FilteredVisualizations
       default_selection sample_globals).1 ≠ sample_globals.
Proof.
  repeat split; try reflexivity.
  intros H. apply (f_equal (fun g => columns (financial_df g))) in H.
  vm_compute in H. discriminate.
Qed.

(** ** Sorted distinct keys *)






(** ** Groups of a keyed column *)

Section groups.
Context {K : Type} `{EqDecision K}.
Variables (key : Row → option K) (val : Row → option Q).





End groups.


Lemma omap_keep {A B} (keep : A → bool) (f : A → B) (l : list A) :
  omap (fun a => if keep a then Some (f a) else None) l
  = f <$> List.filter keep l.
Proof.
  induction l as [|a l IH]; [reflexivity|].
  csimpl. destruct (keep a); csimpl; by rewrite IH.
Qed.

(** ** The combined table and its derived columns *)

Lemma mapM_ok {A B} (f : A → Result B) (l : list A) (k : list B) :
  mapM f l = Ok k → Forall2 (fun a b => f a = Ok b) l k.
Proof.
  revert k. induction l as [|a l IH]; intros k; simpl.
  - intros [= <-]. constructor.
  - destruct (f a) as [b|e] eqn:Ha; [|discriminate]. simpl.
    destruct (mapM f l) as [k'|e]; [|discriminate]. simpl.
    intros [= <-]. constructor; [exact Ha | by apply IH].
Qed.

Lemma set_cell_same (col : string) (r : Row) (v : option Cell) :
  set_cell col r v !! col = v.
Proof.
  destruct v; simpl; [apply lookup_insert_eq | apply lookup_delete_eq].
Qed.

Lemma set_cell_other (col c : string) (r : Row) (v : option Cell) :
  c ≠ col → set_cell col r v !! c = r !! c.
Proof.
  intros H. destruct v; simpl;
    [by apply lookup_insert_ne | by apply lookup_delete_ne].
Qed.

Lemma derive_rows (f : Date → Cell) (df : DataFrame) (col : string)
    (dates s : Series) :
  getitem df "Date" = Ok dates → dt_field f dates = Ok s →
  Forall2 (derived_from_date f col) (rows df)
          (rows (setitem_series df col s)).
Proof.
  unfold getitem. destruct (bool_decide _); [|discriminate].
  intros [= <-] Hs. apply mapM_ok in Hs. simpl.
  revert s Hs. induction (rows df) as [|r rs IH]; intros s Hs.
  - inversion Hs. constructor.
  - rewrite fmap_cons in Hs. inversion Hs as [|? v ? s' Hv Hrest]; subst.
    simpl. constructor; [|by apply IH].
    split; [by rewrite set_cell_same|].
    intros c Hc. by apply set_cell_other.
Qed.










Lemma filter_dataset_columns (dataset : Dataset) (df : DataFrame) :
  columns (filter_dataset dataset df) = columns df.
Proof. by destruct dataset. Qed.


(** ** Reading the chosen metric *)

Lemma numeric_cell_number (col : string) (r : Row) :
  match r !! col with
  | None | Some (CInt _) | Some (CFloat _) => true
  | Some _ => false
  end = true →
  numeric_cell (r !! col) = Ok (number_at col r).
Proof.
  unfold number_at. by destruct (r !! col) as [[]|].
Qed.

Lemma numeric_series_numbers (col : string) (rs : list Row) :
  Forall (fun r => match r !! col with
                   | None | Some (CInt _) | Some (CFloat _) => true
                   | Some _ => false
                   end = true) rs →
  numeric_series ((.!! col) <$> rs) = Ok (number_at col <$> rs).
Proof.
  unfold numeric_series. induction 1 as [|r rs Hr _ IH]; [reflexivity|].
  rewrite !fmap_cons.
  change (mapM numeric_cell (r !! col :: ((.!! col) <$> rs)))
    with (y ← numeric_cell (r !! col);
          k ← mapM numeric_cell ((.!! col) <$> rs); mret (y :: k)).
  rewrite (numeric_cell_number _ _ Hr), IH. reflexivity.
Qed.

Lemma numeric_dtype_cells (df : DataFrame) (col : string) :
  numeric_dtype df col = true →
  forallb (fun r => match r !! col with
                    | None | Some (CInt _) | Some (CFloat _) => true
                    | Some _ => false
                    end) (rows df) = true.
Proof. unfold numeric_dtype. by destruct (rows df). Qed.


(** ** Aggregation by year and by month *)













Example yearly_sample :
  aggregate false Yearly sample_combined "Total Revenue"
  = Ok [(CInt 2020, Finite (10 # 1)); (CInt 2021, Finite (20 # 1))].
Proof. vm_compute. reflexivity. Qed.







Lemma bucket_months_all (df : DataFrame) :
  bucket_months false df = all_months.
Proof. reflexivity. Qed.





(* ================================================================== *)
(** * Part III: further properties of the script                       *)
(* ================================================================== *)

(** ** Loaders on a file that exists *)

Lemma except_ok_inv (attempt : Result DataFrame) (msg : string)
    (df : DataFrame) (out : list Output) :
  except_file_not_found attempt msg = (Ok df, out) →
  (attempt = Raise FileNotFoundError ∧ df = empty_frame) ∨ attempt = Ok df.
Proof.
  unfold except_file_not_found.
  destruct attempt as [d|[]]; intros [= <- <-]; auto.
Qed.

Lemma parse_dates_columns (env : Env) (col : string) (data data' : DataFrame) :
  parse_dates env col data = Ok data' →
  col ∈ columns data ∧ columns data' = columns data.
Proof.
  unfold parse_dates.
  destruct (decide (col ∈ columns data)) as [Hin|Hout].
  - rewrite getitem_present by exact Hin. simpl.
    destruct (to_datetime env _); [|discriminate]. simpl.
    intros [= <-]. split; [exact Hin|]. simpl.
    by apply add_column_present.
  - rewrite getitem_absent by exact Hout. discriminate.
Qed.

Lemma parse_dates_no_column (env : Env) (col : string) (data : DataFrame) :
  col ∉ columns data → parse_dates env col data = Raise (KeyError col).
Proof.
  intros H. unfold parse_dates. by rewrite getitem_absent.
Qed.

(** X1 -- the loaders handle the missing file only.  A financial or
    commodities file that is read but has no [Date] column makes the
    loader raise [KeyError: 'Date'] to the script, without any message;
    the sentiment loader parses [date] only when the column is there and
    otherwise returns the table as read. *)
Theorem loaders_without_date_column (env : Env) (data : DataFrame) :
  (read_csv env financial_path = Ok data → "Date" ∉ columns data →
     load_financial_data env = (Raise (KeyError "Date"), []))
  ∧ (read_csv env commodities_path = Ok data → "Date" ∉ columns data →
       load_commodities_data env = (Raise (KeyError "Date"), []))
  ∧ (read_csv env sentiment_path = Ok data → "date" ∉ columns data →
       load_sentiment_data env = (Ok data, [])).
Proof.
  split; [|split]; intros Hread Hcol.
  - unfold load_financial_data. rewrite Hread. simpl.
    by rewrite parse_dates_no_column.
  - unfold load_commodities_data. rewrite Hread. simpl.
    by rewrite parse_dates_no_column.
  - unfold load_sentiment_data. rewrite Hread. simpl.
    by rewrite bool_decide_eq_false_2.
Qed.

Lemma renamed_financial (c : string) :
  renamed [("Shareholder's Equity", "Shareholders_Equity")] c
  = if decide (c = "Shareholder's Equity") then "Shareholders_Equity" else c.
Proof.
  unfold renamed. simpl.
  destruct (decide ("Shareholder's Equity" = c)) as [<-|Hne]; simpl.
  - reflexivity.
  - rewrite decide_False by congruence. reflexivity.
Qed.

Lemma renamed_commodities (c : string) :
  renamed [("CPIAUCSL", "CPI"); ("WTISPLC", "Oil");
           ("PCOPPUSDM", "Copper"); ("GDP", "GDP")] c
  = if decide (c = "CPIAUCSL") then "CPI"
    else if decide (c = "WTISPLC") then "Oil"
    else if decide (c = "PCOPPUSDM") then "Copper"
    else c.
Proof.
  unfold renamed. simpl.
  repeat (case_decide; simpl; try congruence).
Qed.

Lemma load_financial_inv (env : Env) (df : DataFrame) (out : list Output) :
  load_financial_data env = (Ok df, out) →
  df = empty_frame
  ∨ ∃ data data',
      read_csv env financial_path = Ok data
      ∧ parse_dates env "Date" data = Ok data'
      ∧ df = rename [("Shareholder's Equity", "Shareholders_Equity")] data'.
Proof.
  unfold load_financial_data. intros H.
  apply except_ok_inv in H as [[_ ->]|H]; [by left|]. right.
  destruct (read_csv env financial_path) as [data|e]; [|discriminate].
  simpl in H.
  destruct (parse_dates env "Date" data) as [data'|e] eqn:Hp; [|discriminate].
  simpl in H. injection H as <-. eauto.
Qed.

Lemma load_commodities_inv (env : Env) (df : DataFrame) (out : list Output) :
  load_commodities_data env = (Ok df, out) →
  df = empty_frame
  ∨ ∃ data data',
      read_csv env commodities_path = Ok data
      ∧ parse_dates env "Date" data = Ok data'
      ∧ df = rename [("CPIAUCSL", "CPI"); ("WTISPLC", "Oil");
                     ("PCOPPUSDM", "Copper"); ("GDP", "GDP")] data'.
Proof.
  unfold load_commodities_data. intros H.
  apply except_ok_inv in H as [[_ ->]|H]; [by left|]. right.
  destruct (read_csv env commodities_path) as [data|e]; [|discriminate].
  simpl in H.
  destruct (parse_dates env "Date" data) as [data'|e] eqn:Hp; [|discriminate].
  simpl in H. injection H as <-. eauto.
Qed.

Lemma not_in_renamed (mapping : list (string * string)) (x : string)
    (cols : list string) :
  (∀ c, renamed mapping c ≠ x) → x ∉ renamed mapping <$> cols.
Proof.
  intros H Hin. apply list_elem_of_fmap in Hin as (c & Hc & _).
  by apply (H c).
Qed.

(** X2 -- whatever the loaders return, the raw labels are gone: no
    column of the financial table is labelled [Shareholder's Equity], and
    no column of the commodities table is labelled [CPIAUCSL], [WTISPLC]
    or [PCOPPUSDM]. *)
Theorem loaded_tables_have_no_raw_label (env : Env) (df : DataFrame)
    (out : list Output) :
  (load_financial_data env = (Ok df, out) →
     "Shareholder's Equity" ∉ columns df)
  ∧ (load_commodities_data env = (Ok df, out) →
       ("CPIAUCSL" ∉ columns df) ∧ ("WTISPLC" ∉ columns df)
       ∧ ("PCOPPUSDM" ∉ columns df)).
Proof.
  split; intros H.
  - apply load_financial_inv in H as [->|(data & data' & _ & _ & ->)].
    + intros Hin. inversion Hin.
    + apply not_in_renamed. intros c. rewrite renamed_financial.
      case_decide; congruence.
  - apply load_commodities_inv in H as [->|(data & data' & _ & _ & ->)].
    + repeat split; intros Hin; inversion Hin.
    + repeat split; apply not_in_renamed; intros c;
        rewrite renamed_commodities; repeat case_decide; congruence.
Qed.

Lemma loaded_tables_have_no_raw_label_witness :
  "Shareholder's Equity"
  ∉ columns (rename [("Shareholder's Equity", "Shareholders_Equity")]
               raw_financial).
Proof.
  apply (proj1 (loaded_tables_have_no_raw_label (reading raw_financial)
                  (rename [("Shareholder's Equity", "Shareholders_Equity")]
                     raw_financial) [])).
  vm_compute. reflexivity.
Defined.

(** X3 -- a financial file that is read, has a [Date] column and whose
    dates parse is returned without any message, with its labels in file
    order, [Shareholder's Equity] replaced by [Shareholders_Equity]; the
    Data Explorer page renames that label back, so that it shows exactly
    the labels of the file, provided the file has no column already
    called [Shareholders_Equity]. *)
Theorem financial_labels_round_trip (env : Env) (data : DataFrame)
    (dates : Series) :
  read_csv env financial_path = Ok data →
  "Date" ∈ columns data →
  to_datetime env ((.!! "Date") <$> rows data) = Ok dates →
  ∃ df,
    load_financial_data env = (Ok df, [])
    ∧ columns df
      = (fun c => if decide (c = "Shareholder's Equity")
                  then "Shareholders_Equity" else c) <$> columns data
    ∧ ("Shareholders_Equity" ∉ columns data →
         columns (explorer_display df) = columns data).
Proof.
  intros Hread Hdate Hparse.
  exists (rename [("Shareholder's Equity", "Shareholders_Equity")]
            (setitem_series data "Date" dates)).
  split.
  { unfold load_financial_data, parse_dates. rewrite Hread. simpl.
    rewrite getitem_present by exact Hdate. simpl. rewrite Hparse.
    reflexivity. }
  assert (Hcols : columns (rename [("Shareholder's Equity", "Shareholders_Equity")]
                             (setitem_series data "Date" dates))
                  = (fun c => if decide (c = "Shareholder's Equity")
                              then "Shareholders_Equity" else c)
                      <$> columns data).
  { simpl. rewrite add_column_present by exact Hdate.
    apply list_fmap_ext. intros _ c _. apply renamed_financial. }
  split; [exact Hcols|].
  intros Hnew. unfold explorer_display.
  change (columns (rename ?m ?d)) with (renamed m <$> columns d).
  change (renamed [("Shareholder's Equity", "Shareholders_Equity")]
            <$> columns (setitem_series data "Date" dates))
    with (columns (rename [("Shareholder's Equity", "Shareholders_Equity")]
                     (setitem_series data "Date" dates))).
  rewrite Hcols, <- list_fmap_compose.
  rewrite <- (list_fmap_id (columns data)) at 2.
  apply Forall_fmap_ext_1. apply Forall_forall. intros c Hc. simpl.
  unfold renamed. simpl.
  destruct (decide (c = "Shareholder's Equity")) as [->|Hne]; simpl.
  - reflexivity.
  - destruct (decide ("Shareholders_Equity" = c)) as [<-|Hne']; [done|].
    reflexivity.
Qed.

Lemma financial_labels_round_trip_witness :
  ∃ df,
    load_financial_data (reading raw_financial) = (Ok df, [])
    ∧ columns df
      = (fun c => if decide (c = "Shareholder's Equity")
                  then "Shareholders_Equity" else c) <$> columns raw_financial
    ∧ ("Shareholders_Equity" ∉ columns raw_financial →
         columns (explorer_display df) = columns raw_financial).
Proof.
  apply (financial_labels_round_trip (reading raw_financial) raw_financial
           ((.!! "Date") <$> rows raw_financial)).
  - reflexivity.
  - simpl. left.
  - reflexivity.
Defined.

Lemma except_raise_silent (attempt : Result DataFrame) (msg : string)
    (e : Exn) :
  (except_file_not_found attempt msg).1 = Raise e →
  (except_file_not_found attempt msg).2 = [].
Proof. by destruct attempt as [d|[]]. Qed.

Lemma except_outputs (attempt : Result DataFrame) (msg : string) :
  (except_file_not_found attempt msg).2 = []
  ∨ (except_file_not_found attempt msg).2 = [StError msg].
Proof. destruct attempt as [d|[]]; auto. Qed.

(** X4 -- an exception that leaves the financial loader, or the
    commodities loader after the financial one returned, ends the run in
    that exception before the sidebar and any page: by then the loaders
    have shown nothing in the first case, and at most the file-not-found
    message of the financial loader in the second. *)
Theorem loader_exception_ends_run (env : Env) (page : Page) (sel : Selection)
    (e : Exn) :
  ((load_financial_data env).1 = Raise e →
     load_data env = (Raise e, [])
     ∧ run_script env page sel = Raise e)
  ∧ (∀ f, (load_financial_data env).1 = Ok f →
       (load_commodities_data env).1 = Raise e →
       load_data env = (Raise e, (load_financial_data env).2)
       ∧ ((load_financial_data env).2 = []
          ∨ (load_financial_data env).2
            = [StError ("Financial data file not found at: "
                        +:+ financial_path)])
       ∧ run_script env page sel = Raise e).
Proof.
  split.
  - intros H.
    pose proof (except_raise_silent _ _ _ H) as Hout.
    fold (load_financial_data env) in Hout.
    unfold run_script, load_data.
    destruct (load_financial_data env) as [f out_f]. simpl in H, Hout.
    subst f out_f.
    destruct (load_commodities_data env) as [c oc].
    destruct (load_sentiment_data env) as [s os].
    by destruct c, s.
  - intros f Hf Hc.
    pose proof (except_raise_silent _ _ _ Hc) as Hout.
    fold (load_commodities_data env) in Hout.
    split; [|split].
    + unfold load_data.
      destruct (load_financial_data env) as [f' out_f]. simpl in Hf. subst f'.
      destruct (load_commodities_data env) as [c out_c]. simpl in Hc, Hout.
      subst c out_c.
      destruct (load_sentiment_data env) as [s os].
      simpl. rewrite app_nil_r. by destruct s.
    + apply except_outputs.
    + unfold run_script, load_data.
      destruct (load_financial_data env) as [f' out_f]. simpl in Hf. subst f'.
      destruct (load_commodities_data env) as [c out_c]. simpl in Hc.
      subst c.
      destruct (load_sentiment_data env) as [s os].
      by destruct s.
Qed.

Lemma loader_exception_ends_run_witness :
  (load_data (reading header_only_sentiment) = (Raise (KeyError "Date"), [])
   ∧ run_script (reading header_only_sentiment) FinancialMetrics
       default_selection = Raise (KeyError "Date"))
  ∧ load_data (dateless_commodities (quiet_env false))
    = (Raise (KeyError "Date"),
       [StError "Financial data file not found at: financials_cleaned_for_plots.csv"]).
Proof.
  split; [|vm_compute; reflexivity].
  apply (proj1 (loader_exception_ends_run (reading header_only_sentiment)
                  FinancialMetrics default_selection (KeyError "Date"))).
  reflexivity.
Defined.

(** ** Reading the latest and the previous value *)

Lemma latest_prev_two (df : DataFrame) (col : string) (front : list Row)
    (x y : Row) :
  rows df = front ++ [x; y] → col ∈ columns df →
  latest_prev df col = Ok (item (y !! col), item (x !! col)).
Proof.
  intros Hrows Hcol. unfold latest_prev.
  rewrite getitem_present by exact Hcol.
  unfold len. rewrite Hrows, fmap_app. simpl.
  replace (((.!! col) <$> front) ++ [x !! col; y !! col])
    with ((((.!! col) <$> front) ++ [x !! col]) ++ [y !! col])
    by (rewrite <- app_assoc; reflexivity).
  rewrite iloc_last. simpl.
  replace (1 <? Z.of_nat (length (front ++ [x; y]))) with true.
  2:{ symmetry. apply Z.ltb_lt. rewrite length_app. simpl. lia. }
  rewrite <- app_assoc. simpl. rewrite iloc_second_last. reflexivity.
Qed.

Lemma latest_prev_nonempty (df : DataFrame) (col : string) :
  rows df ≠ [] → col ∈ columns df →
  ∃ r_prev r_last,
    r_prev ∈ rows df ∧ r_last ∈ rows df
    ∧ latest_prev df col = Ok (item (r_last !! col), item (r_prev !! col)).
Proof.
  intros Hne Hcol.
  destruct (exists_last Hne) as (l1 & y & Hrows).
  destruct (decide (l1 = [])) as [->|Hne1].
  - exists y, y. rewrite Hrows. repeat split; try (simpl; left).
    by apply latest_prev_single.
  - destruct (exists_last Hne1) as (front & x & ->).
    rewrite <- app_assoc in Hrows. simpl in Hrows.
    exists x, y. rewrite Hrows at 1 2. repeat split.
    + apply elem_of_app. right. left.
    + apply elem_of_app. right. right. left.
    + by eapply latest_prev_two.
Qed.

Lemma df_empty_false (df : DataFrame) :
  df_empty df = false → columns df ≠ [] ∧ rows df ≠ [].
Proof.
  unfold df_empty. destruct (columns df), (rows df); try discriminate.
  by split.
Qed.

(** X5 -- reading the latest and previous value of a column: a label that
    is not a column raises [KeyError]; a table with the column and no row
    raises [IndexError]; on a table that passes the page's [df.empty] guard
    and has the column, the read succeeds and returns the values of two
    rows of the table. *)
Theorem latest_prev_outcomes (df : DataFrame) (col : string) :
  (col ∉ columns df → latest_prev df col = Raise (KeyError col))
  ∧ (col ∈ columns df → rows df = [] →
       latest_prev df col = Raise IndexError)
  ∧ (col ∈ columns df → df_empty df = false →
       ∃ r_prev r_last,
         r_prev ∈ rows df ∧ r_last ∈ rows df
         ∧ latest_prev df col
           = Ok (item (r_last !! col), item (r_prev !! col))).
Proof.
  split; [|split].
  - intros H. unfold latest_prev. by rewrite getitem_absent.
  - intros Hcol Hrows. unfold latest_prev.
    rewrite getitem_present by exact Hcol. by rewrite Hrows.
  - intros Hcol Hne. apply df_empty_false in Hne as [_ Hne].
    by apply latest_prev_nonempty.
Qed.

(** X6 -- the computation of the "Latest Revenue" card from the
    [Total Revenue] column, read as NumPy scalars: a column without
    entries raises [IndexError]; a column of one entry gives the delta card
    of that entry against itself; a longer column gives the delta card of
    its last entry against the one before it.  Nothing else is raised:
    a previous revenue of 0 gives the percent change 0, and a missing
    previous entry gives "nan" in the delta line. *)
Theorem revenue_card_outcomes (front : list Np.Scalar)
    (v prev latest : Np.Scalar) :
  Np.revenue_card [] = Raise IndexError
  ∧ Np.revenue_card [v] = Ok (Np.delta_card "Latest Revenue" v v "💰")
  ∧ Np.revenue_card (front ++ [prev; latest])
    = Ok (Np.delta_card "Latest Revenue" latest prev "💰")
  ∧ Np.revenue_card [Np.I64 0; Np.I64 81797]
    = Ok {| card_title := "Latest Revenue"; value_display := "81797";
            card_arrow := "↑"; change_color := color_positive;
            change_text := "↑ 81,797.00 (0.0%)" |}
  ∧ Np.revenue_card [Np.F64 S754_nan; Np.F64 (Np.f64_of_Z 1500000)]
    = Ok {| card_title := "Latest Revenue"; value_display := "$1.5M";
            card_arrow := "↓"; change_color := color_negative;
            change_text := "↓ nan (nan%)" |}.
Proof.
  split; [reflexivity|]. split; [reflexivity|].
  split; [|split; vm_compute; reflexivity].
  unfold Np.revenue_card, Np.latest_prev.
  replace (front ++ [prev; latest]) with ((front ++ [prev]) ++ [latest])
    by (rewrite <- app_assoc; reflexivity).
  rewrite iloc_last. simpl.
  replace (1 <? Z.of_nat (length ((front ++ [prev]) ++ [latest]))) with true.
  2:{ symmetry. apply Z.ltb_lt. rewrite !length_app. simpl. lia. }
  rewrite <- app_assoc. simpl. by rewrite iloc_second_last.
Qed.

(** ** Positions of a series *)

(** X7 -- [iloc] accepts the positions from [-n] to [n - 1] of a series of
    length [n], a negative position counting from the end, and raises
    [IndexError] for every other position. *)
Theorem iloc_bounds {A} (s : list A) (i : Z) :
  (- Z.of_nat (length s) <= i < Z.of_nat (length s) →
     ∃ a, iloc s i = Ok a
          ∧ s !! Z.to_nat (i mod Z.of_nat (length s)) = Some a)
  ∧ (i < - Z.of_nat (length s) ∨ Z.of_nat (length s) <= i →
       iloc s i = Raise IndexError).
Proof.
  unfold iloc. set (n := Z.of_nat (length s)). split.
  - intros Hi.
    assert (Hj : (if i <? 0 then n + i else i) = i mod n).
    { destruct (i <? 0) eqn:E.
      - apply Z.ltb_lt in E.
        apply (Z.mod_unique_pos _ _ (-1)); lia.
      - apply Z.ltb_ge in E. symmetry. apply Z.mod_small. lia. }
    rewrite Hj.
    assert (Hr : 0 <= i mod n < n) by (apply Z.mod_pos_bound; lia).
    replace (0 <=? i mod n) with true by (symmetry; apply Z.leb_le; lia).
    replace (i mod n <? n) with true by (symmetry; apply Z.ltb_lt; lia).
    simpl.
    destruct (s !! Z.to_nat (i mod n)) as [a|] eqn:E; [eauto|].
    apply lookup_ge_None in E. revert E Hr. unfold n.
    generalize (i mod Z.of_nat (length s)). intros j E Hr. lia.
  - intros Hi. destruct (i <? 0) eqn:E.
    + apply Z.ltb_lt in E.
      replace (0 <=? n + i) with false; [reflexivity|].
      symmetry. apply Z.leb_gt. lia.
    + apply Z.ltb_ge in E.
      replace (i <? n) with false; [by rewrite andb_false_r|].
      symmetry. apply Z.ltb_ge. lia.
Qed.

(** ** More metric cards *)

(** X8 -- the "ROE vs Target" card compares the latest return on equity
    with the fixed target 15.0.  The change is the binary64 difference
    latest - 15.0 (a NumPy integer is converted first); the arrow is up
    exactly when that difference is >= 0; the delta line shows its absolute
    value and the absolute value of (difference / 15.0) * 100.  The
    division by the target needs no guard.  A return of 18.0 gives
    "↑ 3.00 (20.0%)", an integer return of 12 gives "↓ 3.00 (20.0%)" under
    the value line "12". *)
Theorem roe_card_against_target (latest_roe : Np.Scalar) :
  let change := SFsub 53 1024 (Np.to_f64 latest_roe) (Np.f64_of_Z 15) in
  let card := Np.roe_card latest_roe in
  (card_arrow card = "↑" ↔ SFleb (S754_zero false) change = true)
  ∧ (card_arrow card = "↓" ↔ SFleb (S754_zero false) change = false)
  ∧ change_text card
    = card_arrow card +:+ " " +:+ Np.format_f64 true 2 (SFabs change)
      +:+ " ("
      +:+ Np.format_f64 false 1
            (SFabs (SFmul 53 1024 (SFdiv 53 1024 change (Np.f64_of_Z 15))
                      (Np.f64_of_Z 100)))
      +:+ "%)"
  ∧ Np.roe_card (Np.F64 (Np.f64_of_Z 18))
    = {| card_title := "ROE vs Target"; value_display := "18.00";
         card_arrow := "↑"; change_color := color_positive;
         change_text := "↑ 3.00 (20.0%)" |}
  ∧ Np.roe_card (Np.I64 12)
    = {| card_title := "ROE vs Target"; value_display := "12";
         card_arrow := "↓"; change_color := color_negative;
         change_text := "↓ 3.00 (20.0%)" |}
  ∧ change_text (Np.roe_card (Np.F64 (Np.f64_of_Z 15))) = "↑ 0.00 (0.0%)".
Proof.
  intros change card.
  assert (Hsub : Np.sub latest_roe Np.target_roe = Np.F64 change)
    by (by destruct latest_roe).
  split; [|split; [|split; [|repeat split; vm_compute; reflexivity]]];
    subst card; unfold Np.roe_card, Np.create_metric_card;
    rewrite Hsub; cbn [card_arrow change_text Np.ge_zero].
  - destruct (SFleb (S754_zero false) change); [by split|].
    split; [|discriminate]. intros H. symmetry in H.
    by apply up_down_differ in H.
  - destruct (SFleb (S754_zero false) change); [|by split].
    split; [|discriminate]. intros H. by apply up_down_differ in H.
  - reflexivity.
Qed.

Lemma abs_neg (a : Np.Scalar) :
  Np.above_min a → Np.abs (Np.neg a) = Np.abs a.
Proof.
  destruct a as [z|x]; simpl.
  - intros H. rewrite (wrap_small (- z)) by lia. by rewrite Z.abs_opp.
  - intros _. by destruct x.
Qed.

(** X9 -- the delta line shows magnitudes only: a change and its opposite
    (with opposite percent changes) give the same text after the arrow, so
    the direction is carried by the arrow and the colour alone.  The least
    [int64], which has no opposite, is left out. *)
Theorem delta_line_shows_magnitudes (title icon : string) (value : Np.Value)
    (change pct : Np.Scalar) :
  Np.above_min change → Np.above_min pct →
  ∃ body,
    change_text (Np.create_metric_card title value
                   (Some change) (Some pct) icon)
    = card_arrow (Np.create_metric_card title value
                    (Some change) (Some pct) icon)
      +:+ body
    ∧ change_text (Np.create_metric_card title value
                     (Some (Np.neg change)) (Some (Np.neg pct)) icon)
      = card_arrow (Np.create_metric_card title value
                      (Some (Np.neg change)) (Some (Np.neg pct)) icon)
        +:+ body.
Proof.
  intros Hc Hp.
  exists (" " +:+ Np.format_scalar true 2 (Np.abs change)
          +:+ " (" +:+ Np.format_scalar false 1 (Np.abs pct) +:+ "%)").
  split; [reflexivity|].
  unfold Np.create_metric_card. cbn [change_text card_arrow].
  by rewrite (abs_neg _ Hc), (abs_neg _ Hp).
Qed.

Lemma delta_line_shows_magnitudes_witness :
  (∃ body,
     change_text (Np.create_metric_card "Latest Revenue" (Np.Str "110.00")
                    (Some (Np.I64 10)) (Some (Np.F64 (Np.f64_of_Z 10))) "💰")
     = card_arrow (Np.create_metric_card "Latest Revenue" (Np.Str "110.00")
                     (Some (Np.I64 10)) (Some (Np.F64 (Np.f64_of_Z 10))) "💰")
       +:+ body
     ∧ change_text (Np.create_metric_card "Latest Revenue" (Np.Str "110.00")
                      (Some (Np.neg (Np.I64 10)))
                      (Some (Np.neg (Np.F64 (Np.f64_of_Z 10)))) "💰")
       = card_arrow (Np.create_metric_card "Latest Revenue" (Np.Str "110.00")
                       (Some (Np.neg (Np.I64 10)))
                       (Some (Np.neg (Np.F64 (Np.f64_of_Z 10)))) "💰")
         +:+ body)
  ∧ change_text (Np.create_metric_card "Latest Revenue" (Np.Str "110.00")
                   (Some (Np.I64 10)) (Some (Np.F64 (Np.f64_of_Z 10))) "💰")
    = "↑ 10.00 (10.0%)"
  ∧ change_text (Np.create_metric_card "Latest Revenue" (Np.Str "110.00")
                   (Some (Np.neg (Np.I64 10)))
                   (Some (Np.neg (Np.F64 (Np.f64_of_Z 10)))) "💰")
    = "↓ 10.00 (10.0%)".
Proof.
  split; [|split; vm_compute; reflexivity].
  apply (delta_line_shows_magnitudes "Latest Revenue" "💰" (Np.Str "110.00")
           (Np.I64 10) (Np.F64 (Np.f64_of_Z 10))).
  - simpl. lia.
  - exact I.
Defined.

(** X10 -- for an amount of -1,000,000 or below the value line puts the
    dollar sign before the minus sign: it reads "$-" followed by the
    digits and "M". *)
Theorem negative_million_display (title icon : string) (q : Q) :
  (q <= - inject_Z 1000000)%Q →
  ∃ digits_,
    value_display (create_metric_card title (PyFloat (Finite q))
                     None None icon)
    = "$-" +:+ digits_ +:+ "M".
Proof.
  intros Hq.
  assert (Hneg : (q < 0)%Q).
  { eapply Qle_lt_trans; [exact Hq|]. reflexivity. }
  assert (Habs : (inject_Z 1000000 <= Qabs q)%Q).
  { rewrite Qabs_neg by (by apply Qlt_le_weak).
    apply Qopp_le_compat in Hq. by rewrite Qopp_involutive in Hq. }
  destruct (format_value_builtin title icon 0 (Finite q)) as [_ ->].
  rewrite (format_number_million _ Habs).
  unfold format_fixed.
  destruct (Qlt_le_dec (q / inject_Z 1000000) 0) as [_|Hge].
  - eexists. reflexivity.
  - exfalso. apply (Qlt_not_le _ _ Hneg).
    assert (Heq : (q == q / inject_Z 1000000 * inject_Z 1000000)%Q)
      by (field; discriminate).
    rewrite Heq.
    apply Qmult_le_0_compat; [exact Hge | discriminate].
Qed.

Lemma negative_million_display_witness :
  ∃ digits_,
    value_display (create_metric_card "Net Income"
                     (PyFloat (Finite (- inject_Z 2500000))) None None "i")
    = "$-" +:+ digits_ +:+ "M".
Proof.
  apply (negative_million_display "Net Income" "i" (- inject_Z 2500000)).
  discriminate.
Defined.

Example negative_million_text :
  value_display (create_metric_card "Net Income"
                   (PyFloat (Finite (- inject_Z 2500000))) None None "i")
  = "$-2.5M".
Proof. reflexivity. Qed.

(** X11 -- a delta card of the Commodities page receives its value as a
    string already formatted with two decimals, so the value line is that
    string whatever the magnitude -- never abbreviated to K or M, never
    with a dollar sign -- while its arrow and delta line are those of the
    financial delta card for the same numbers. *)
Theorem commodity_card_value_line (title icon : string) (comma : bool)
    (latest prev : PyValue) (l p : Float) :
  to_float latest = Ok l → to_float prev = Ok p →
  ∃ card fin,
    commodity_delta_card title comma latest prev icon = Ok card
    ∧ delta_card title latest prev icon = Ok fin
    ∧ value_display card = format_f comma 2 l
    ∧ card_arrow card = card_arrow fin
    ∧ change_color card = change_color fin
    ∧ change_text card = change_text fin.
Proof.
  intros Hl Hp.
  destruct (pct_change_returns (fsub l p) p) as [pct Hpct].
  exists (create_metric_card title (PyObj (PyStr (format_f comma 2 l)))
            (Some (fsub l p)) (Some pct) icon),
         (create_metric_card title latest (Some (fsub l p)) (Some pct) icon).
  split.
  { unfold commodity_delta_card, delta_of.
    rewrite Hl. simpl. rewrite Hp. simpl. rewrite Hpct. reflexivity. }
  split; [by apply delta_card_unfold|].
  repeat split.
Qed.

Lemma commodity_card_value_line_witness :
  ∃ card fin,
    commodity_delta_card "Latest GDP" true (PyFloat (Finite (inject_Z 25000000)))
      (PyFloat (Finite (inject_Z 24000000))) "i" = Ok card
    ∧ delta_card "Latest GDP" (PyFloat (Finite (inject_Z 25000000)))
        (PyFloat (Finite (inject_Z 24000000))) "i" = Ok fin
    ∧ value_display card = format_f true 2 (Finite (inject_Z 25000000))
    ∧ card_arrow card = card_arrow fin
    ∧ change_color card = change_color fin
    ∧ change_text card = change_text fin.
Proof.
  apply (commodity_card_value_line "Latest GDP" "i" true
           (PyFloat (Finite (inject_Z 25000000)))
           (PyFloat (Finite (inject_Z 24000000)))
           (Finite (inject_Z 25000000)) (Finite (inject_Z 24000000)));
    reflexivity.
Defined.

Example gdp_card_is_not_abbreviated :
  commodity_delta_card "Latest GDP" true
    (PyFloat (Finite (inject_Z 25000000)))
    (PyFloat (Finite (inject_Z 24000000))) "i"
  = Ok {| card_title := "Latest GDP"; value_display := "25,000,000.00";
          card_arrow := "↑"; change_color := color_positive;
          change_text := "↑ 1,000,000.00 (4.2%)" |}.
Proof. vm_compute. reflexivity. Qed.

(** ** Thousands separators *)

Lemma commas_rev_strip (k : nat) (l : list ascii) :
  List.filter not_comma (commas_rev k l) = List.filter not_comma l.
Proof.
  revert k. induction l as [|c l IH]; intros k; [reflexivity|].
  simpl. destruct k as [|[|[|[|k]]]]; simpl; rewrite IH; reflexivity.
Qed.

Lemma filter_rev_comm {A} (f : A → bool) (l : list A) :
  List.filter f (rev l) = rev (List.filter f l).
Proof.
  induction l as [|a l IH]; [reflexivity|].
  simpl. rewrite List.filter_app, IH. simpl.
  destruct (f a); simpl; [reflexivity | by rewrite app_nil_r].
Qed.

(** X12 -- the thousands separators only add commas: taking the commas
    out of a grouped string gives back the string without its commas, in
    particular the digits themselves when the string had none. *)
Theorem group_thousands_keeps_digits (s : string) :
  strip_commas (group_thousands s) = strip_commas s
  ∧ (strip_commas s = s → strip_commas (group_thousands s) = s).
Proof.
  assert (H : strip_commas (group_thousands s) = strip_commas s).
  { unfold strip_commas, group_thousands.
    rewrite list_ascii_of_string_of_list_ascii.
    rewrite filter_rev_comm, commas_rev_strip, filter_rev_comm.
    by rewrite rev_involutive. }
  split; [exact H|]. intros Hs. by rewrite H.
Qed.

Example group_thousands_sample :
  group_thousands "1234567" = "1,234,567"
  ∧ group_thousands "999" = "999"
  ∧ group_thousands "1000" = "1,000".
Proof. repeat split; reflexivity. Qed.

(** ** Maximum, minimum and mean of a column *)

Lemma larger_ge (a b : Q) : (a <= larger a b)%Q ∧ (b <= larger a b)%Q.
Proof.
  unfold larger. destruct (Qle_bool a b) eqn:E.
  - apply Qle_bool_iff in E. split; [exact E | apply Qle_refl].
  - split; [apply Qle_refl|].
    apply Qlt_le_weak, Qnot_le_lt. intros H.
    apply Qle_bool_iff in H. congruence.
Qed.

Lemma smaller_le (a b : Q) : (smaller a b <= a)%Q ∧ (smaller a b <= b)%Q.
Proof.
  unfold smaller. destruct (Qle_bool a b) eqn:E.
  - apply Qle_bool_iff in E. split; [apply Qle_refl | exact E].
  - split; [|apply Qle_refl].
    apply Qlt_le_weak, Qnot_le_lt. intros H.
    apply Qle_bool_iff in H. congruence.
Qed.

Lemma foldl_larger (x : Q) (t : list Q) :
  foldl larger x t ∈ x :: t
  ∧ ∀ y, y ∈ x :: t → (y <= foldl larger x t)%Q.
Proof.
  revert x. induction t as [|a t IH]; intros x; simpl.
  - split; [left|]. intros y Hy. apply list_elem_of_singleton in Hy.
    subst. apply Qle_refl.
  - destruct (IH (larger x a)) as [Hin Hall]. split.
    + apply elem_of_cons in Hin as [Heq|Hin]; [|by do 2 right].
      rewrite Heq. unfold larger. destruct (Qle_bool x a); [right|]; left.
    + intros y Hy. destruct (larger_ge x a) as [Hx Ha].
      apply elem_of_cons in Hy as [->|Hy].
      * eapply Qle_trans; [exact Hx|]. apply Hall. left.
      * apply elem_of_cons in Hy as [->|Hy].
        -- eapply Qle_trans; [exact Ha|]. apply Hall. left.
        -- apply Hall. by right.
Qed.

Lemma foldl_smaller (x : Q) (t : list Q) :
  foldl smaller x t ∈ x :: t
  ∧ ∀ y, y ∈ x :: t → (foldl smaller x t <= y)%Q.
Proof.
  revert x. induction t as [|a t IH]; intros x; simpl.
  - split; [left|]. intros y Hy. apply list_elem_of_singleton in Hy.
    subst. apply Qle_refl.
  - destruct (IH (smaller x a)) as [Hin Hall]. split.
    + apply elem_of_cons in Hin as [Heq|Hin]; [|by do 2 right].
      rewrite Heq. unfold smaller. destruct (Qle_bool x a); [|right]; left.
    + intros y Hy. destruct (smaller_le x a) as [Hx Ha].
      apply elem_of_cons in Hy as [->|Hy].
      * eapply Qle_trans; [|exact Hx]. apply Hall. left.
      * apply elem_of_cons in Hy as [->|Hy].
        -- eapply Qle_trans; [|exact Ha]. apply Hall. left.
        -- apply Hall. by right.
Qed.

Lemma present_fmap {A} (f : A → option Q) (l : list A) :
  present (f <$> l) = omap f l.
Proof.
  unfold present. induction l as [|a l IH]; [reflexivity|].
  csimpl. destruct (f a); csimpl; by rewrite IH.
Qed.

(** X13 -- the Max and Min numbers of a numeric column that holds at
    least one value are values of the column, and they bound every value
    of it; missing entries do not count. *)
Theorem column_extremes_bound (df : DataFrame) (col : string) :
  col ∈ columns df →
  numeric_dtype df col = true →
  omap (number_at col) (rows df) ≠ [] →
  ∃ hi lo,
    column_extremes df col = Ok (Finite hi, Finite lo)
    ∧ hi ∈ omap (number_at col) (rows df)
    ∧ lo ∈ omap (number_at col) (rows df)
    ∧ (∀ q, q ∈ omap (number_at col) (rows df) → (lo <= q)%Q ∧ (q <= hi)%Q).
Proof.
  intros Hcol Hnum Hne.
  assert (Hseries : numeric_series ((.!! col) <$> rows df)
                    = Ok (number_at col <$> rows df)).
  { apply numeric_series_numbers.
    apply numeric_dtype_cells in Hnum. rewrite forallb_forall in Hnum.
    apply Forall_forall. intros r Hr. apply Hnum. by apply list_elem_of_In. }
  pose proof (present_fmap (number_at col) (rows df)) as Hpresent.
  unfold column_extremes, series_max, series_min.
  rewrite getitem_present by exact Hcol. simpl.
  rewrite Hseries. simpl. rewrite Hpresent.
  destruct (omap (number_at col) (rows df)) as [|x t] eqn:E; [done|].
  destruct (foldl_larger x t) as [Hhi_in Hhi].
  destruct (foldl_smaller x t) as [Hlo_in Hlo].
  exists (foldl larger x t), (foldl smaller x t).
  split; [reflexivity|].
  split; [exact Hhi_in|]. split; [exact Hlo_in|].
  intros q Hq. split; [by apply Hlo | by apply Hhi].
Qed.

Lemma column_extremes_bound_witness :
  (∃ hi lo,
     column_extremes cpi_table "CPI" = Ok (Finite hi, Finite lo)
     ∧ hi ∈ omap (number_at "CPI") (rows cpi_table)
     ∧ lo ∈ omap (number_at "CPI") (rows cpi_table)
     ∧ (∀ q, q ∈ omap (number_at "CPI") (rows cpi_table)
             → (lo <= q)%Q ∧ (q <= hi)%Q))
  ∧ column_extremes cpi_table "CPI"
    = Ok (Finite (3041 # 10), Finite (3030 # 10)).
Proof.
  split; [|vm_compute; reflexivity].
  apply (column_extremes_bound cpi_table "CPI").
  - simpl. right. left.
  - vm_compute. reflexivity.
  - vm_compute. discriminate.
Defined.

(** ** Building the combined table *)

Lemma concat_columns (a b : DataFrame) (c : string) :
  c ∈ columns (concat a b) ↔ c ∈ columns a ∨ c ∈ columns b.
Proof.
  unfold concat. simpl. generalize (columns a) as acc.
  induction (columns b) as [|x xs IH]; intros acc; simpl.
  - split; [auto|]. intros [H|H]; [exact H | inversion H].
  - rewrite IH, add_column_elem, elem_of_cons. split.
    + intros [[H|H]|H]; auto.
    + intros [H|[H|H]]; auto.
Qed.

Lemma dt_field_ok (f : Date → Cell) (s : Series) :
  Forall date_or_missing s →
  ∃ k, dt_field f s = Ok k ∧ length k = length s.
Proof.
  unfold dt_field. induction 1 as [|c s Hc _ (k & Hk & Hlen)].
  - by exists [].
  - destruct c as [[]|]; try done.
    + eexists. simpl. rewrite Hk. simpl. split; [reflexivity|].
      simpl. by rewrite Hlen.
    + eexists. simpl. rewrite Hk. simpl. split; [reflexivity|].
      simpl. by rewrite Hlen.
Qed.

Lemma dates_valid_series (df : DataFrame) :
  dates_valid df = true → Forall date_or_missing ((.!! "Date") <$> rows df).
Proof.
  unfold dates_valid. rewrite forallb_forall. intros H.
  apply Forall_fmap, Forall_forall. intros r Hr.
  apply list_elem_of_In in Hr. specialize (H r Hr). simpl.
  by destruct (r !! "Date") as [[]|].
Qed.

Lemma derived_keep_dates (f : Date → Cell) (col : string) (l k : list Row) :
  col ≠ "Date" →
  Forall2 (derived_from_date f col) l k →
  Forall date_or_missing ((.!! "Date") <$> l) →
  Forall date_or_missing ((.!! "Date") <$> k).
Proof.
  intros Hcol. induction 1 as [|r r' l k [_ Hkeep] _ IH]; [done|].
  rewrite !fmap_cons. intros Hall. inversion Hall; subst.
  constructor; [|by apply IH]. rewrite Hkeep; done.
Qed.

Lemma combine_steps (g : Globals) (dates years dates' months : Series) :
  getitem (concat (financial_df g) (commodities_df g)) "Date" = Ok dates →
  dt_field (year_cell (has_missing dates)) dates = Ok years →
  getitem (setitem_series (concat (financial_df g) (commodities_df g))
             "year" years) "Date" = Ok dates' →
  dt_field month_cell dates' = Ok months →
  combine g
  = Ok (setitem_series
          (setitem_series (concat (financial_df g) (commodities_df g))
             "year" years) "month" months).
Proof.
  intros Hd Hy Hd' Hm. unfold combine.
  rewrite Hd. simpl. rewrite Hy. simpl. rewrite Hd'. simpl. rewrite Hm.
  reflexivity.
Qed.

Lemma combine_ok (g : Globals) :
  "Date" ∈ columns (concat (financial_df g) (commodities_df g)) →
  Forall date_or_missing
    ((.!! "Date") <$> rows (concat (financial_df g) (commodities_df g))) →
  ∃ combined_df,
    combine g = Ok combined_df
    ∧ Forall2 same_but_derived
        (rows (concat (financial_df g) (commodities_df g)))
        (rows combined_df)
    ∧ columns combined_df
      = add_column "month"
          (add_column "year"
             (columns (concat (financial_df g) (commodities_df g)))).
Proof.
  intros Hcol Hvalid.
  pose proof (getitem_present _ "Date" Hcol) as Hd.
  destruct (dt_field_ok
              (year_cell
                 (has_missing
                    ((.!! "Date") <$>
                       rows (concat (financial_df g) (commodities_df g)))))
              _ Hvalid) as (years & Hy & Hylen).
  pose proof (derive_rows _ _ "year" _ _ Hd Hy) as H01.
  assert (Hcol1 : "Date" ∈ columns
            (setitem_series (concat (financial_df g) (commodities_df g))
               "year" years)).
  { simpl. apply add_column_elem. by left. }
  pose proof (getitem_present _ "Date" Hcol1) as Hd'.
  assert (Hvalid1 : Forall date_or_missing
            ((.!! "Date") <$> rows
               (setitem_series (concat (financial_df g) (commodities_df g))
                  "year" years))).
  { eapply (derived_keep_dates _ "year"); [done|exact H01|exact Hvalid]. }
  destruct (dt_field_ok month_cell _ Hvalid1) as (months & Hm & Hmlen).
  pose proof (derive_rows _ _ "month" _ _ Hd' Hm) as H12.
  eexists. split; [exact (combine_steps g _ _ _ _ Hd Hy Hd' Hm)|].
  split; [|reflexivity].
  eapply Forall2_trans; [|exact H01|exact H12].
  intros r0 r1 r2 [_ K1] [_ K2] col Hy' Hm'.
  rewrite K2 by done. by apply K1.
Qed.

Lemma combine_inv (g : Globals) (combined_df : DataFrame) :
  combine g = Ok combined_df →
  Forall2 same_but_derived
    (rows (concat (financial_df g) (commodities_df g))) (rows combined_df).
Proof.
  unfold combine.
  set (df0 := concat (financial_df g) (commodities_df g)).
  destruct (getitem df0 "Date") as [dates|] eqn:Hd; [|discriminate]. simpl.
  destruct (dt_field (year_cell (has_missing dates)) dates) as [years|] eqn:Hy;
    [|discriminate].
  simpl. set (df1 := setitem_series df0 "year" years).
  destruct (getitem df1 "Date") as [dates'|] eqn:Hd'; [|discriminate]. simpl.
  destruct (dt_field month_cell dates') as [months|] eqn:Hm; [|discriminate].
  simpl. intros [= <-].
  pose proof (derive_rows _ _ "year" _ _ Hd Hy) as H01.
  pose proof (derive_rows _ _ "month" _ _ Hd' Hm) as H12.
  eapply Forall2_trans; [|exact H01|exact H12].
  intros r0 r1 r2 [_ K1] [_ K2] col Hy' Hm'.
  rewrite K2 by done. by apply K1.
Qed.

Lemma tagged_date_column (df : DataFrame) (tag : Cell) :
  "Date" ∈ columns (setitem_scalar df "source" tag) ↔ "Date" ∈ columns df.
Proof.
  simpl. rewrite add_column_elem. split; [|auto].
  intros [H|H]; [exact H | discriminate].
Qed.

Lemma tagged_dates_valid (df : DataFrame) (tag : Cell) :
  Forall date_or_missing ((.!! "Date") <$> rows df) →
  Forall date_or_missing
    ((.!! "Date") <$> rows (setitem_scalar df "source" tag)).
Proof.
  simpl. rewrite <- list_fmap_compose.
  rewrite !Forall_fmap. intros H. eapply Forall_impl; [exact H|].
  intros r Hr. simpl. by rewrite lookup_insert_ne.
Qed.

(** X14 -- the Filtered Visualizations page builds its combined table
    exactly when it can find dates: if neither loaded table has a [Date]
    column the page ends in [KeyError: 'Date']; if at least one has, and
    the [Date] cells of both are dates or missing, the combined table is
    built, with one row per row of the two tables and the columns of both
    plus [source], [year] and [month]. *)
Theorem combined_table_needs_dates (env : Env) (sel : Selection)
    (g : Globals) :
  ("Date" ∉ columns (financial_df g) → "Date" ∉ columns (commodities_df g) →
     (render env FilteredVisualizations sel g).2 = Raise (KeyError "Date"))
  ∧ ("Date" ∈ columns (financial_df g) ∨ "Date" ∈ columns (commodities_df g) →
     dates_valid (financial_df g) = true →
     dates_valid (commodities_df g) = true →
     ∃ combined_df,
       combine (tag_sources g) = Ok combined_df
       ∧ length (rows combined_df)
         = (length (rows (financial_df g))
            + length (rows (commodities_df g)))%nat
       ∧ ∀ c, c ∈ columns combined_df
              ↔ c ∈ columns (financial_df g) ∨ c ∈ columns (commodities_df g)
                ∨ c = "source" ∨ c = "year" ∨ c = "month").
Proof.
  split.
  - intros Hf Hc.
    change ((render env FilteredVisualizations sel g).2)
      with (filtered_visuals_body env sel (tag_sources g)).
    unfold filtered_visuals_body, combine.
    rewrite getitem_absent; [reflexivity|].
    rewrite concat_columns. unfold tag_sources.
    cbn [financial_df commodities_df].
    rewrite !tagged_date_column. tauto.
  - intros Hcol Hvf Hvc.
    destruct (combine_ok (tag_sources g)) as (c & Hc & Hrows & Hcols).
    + rewrite concat_columns. unfold tag_sources.
      cbn [financial_df commodities_df].
      rewrite !tagged_date_column. exact Hcol.
    + unfold tag_sources, concat. cbn [financial_df commodities_df rows].
      rewrite fmap_app. apply Forall_app. split.
      * apply (tagged_dates_valid _ (CStr "financial")).
        by apply dates_valid_series.
      * apply (tagged_dates_valid _ (CStr "commodities")).
        by apply dates_valid_series.
    + exists c. split; [exact Hc|]. split.
      * apply Forall2_length in Hrows. rewrite <- Hrows.
        unfold tag_sources, concat, setitem_scalar.
        cbn [financial_df commodities_df rows].
        by rewrite length_app, !length_fmap.
      * intros x. rewrite Hcols, !add_column_elem, concat_columns.
        unfold tag_sources, setitem_scalar.
        cbn [financial_df commodities_df columns].
        rewrite !add_column_elem. tauto.
Qed.

(** ** Source tags and the dataset filter *)

Lemma filter_length_related {A B} (R : A → B → Prop) (p : A → bool)
    (q : B → bool) (l : list A) (k : list B) :
  (∀ a b, R a b → p a = q b) → Forall2 R l k →
  length (List.filter q k) = length (List.filter p l).
Proof.
  intros Hpq. induction 1 as [|a b l k Hab _ IH]; [reflexivity|].
  simpl. rewrite (Hpq a b Hab). destruct (q b); simpl; by rewrite IH.
Qed.

Lemma filter_all {A} (p : A → bool) (l : list A) :
  Forall (fun a => p a = true) l → List.filter p l = l.
Proof.
  induction 1 as [|a l Ha _ IH]; [reflexivity|].
  simpl. by rewrite Ha, IH.
Qed.

Lemma filter_none {A} (p : A → bool) (l : list A) :
  Forall (fun a => p a = false) l → List.filter p l = [].
Proof.
  induction 1 as [|a l Ha _ IH]; [reflexivity|].
  simpl. by rewrite Ha.
Qed.

Lemma has_source_tagged (name tag : string) (r : Row) :
  has_source name (<["source" := CStr tag]> r) = bool_decide (tag = name).
Proof. unfold has_source. by rewrite lookup_insert_eq. Qed.

Lemma has_source_same (name : string) (r r' : Row) :
  same_but_derived r r' → has_source name r = has_source name r'.
Proof. intros H. unfold has_source. by rewrite H. Qed.

Lemma source_filter_counts (g : Globals) :
  List.filter (has_source "financial")
    (rows (concat (financial_df (tag_sources g))
                  (commodities_df (tag_sources g))))
  = rows (financial_df (tag_sources g))
  ∧ List.filter (has_source "commodities")
      (rows (concat (financial_df (tag_sources g))
                    (commodities_df (tag_sources g))))
    = rows (commodities_df (tag_sources g)).
Proof.
  unfold tag_sources, concat, setitem_scalar.
  cbn [financial_df commodities_df rows].
  rewrite !List.filter_app. split.
  - rewrite filter_all, filter_none; [by rewrite app_nil_r| |];
      apply Forall_fmap, Forall_forall; intros r _; simpl;
      by rewrite has_source_tagged.
  - rewrite filter_none, filter_all; [reflexivity| |];
      apply Forall_fmap, Forall_forall; intros r _; simpl;
      by rewrite has_source_tagged.
Qed.

(** X15 -- in the combined table of the page every row carries the tag
    of the table it came from, and the dataset filter splits it along the
    tags: "Financial" keeps as many rows as the financial table has,
    "Commodities" as many as the commodities table has, and "All" keeps
    them all. *)
Theorem dataset_filter_partitions (g : Globals) (combined_df : DataFrame) :
  combine (tag_sources g) = Ok combined_df →
  Forall tagged (rows combined_df)
  ∧ length (rows (filter_dataset Financial combined_df))
    = length (rows (financial_df g))
  ∧ length (rows (filter_dataset Commodities combined_df))
    = length (rows (commodities_df g))
  ∧ length (rows (filter_dataset AllData combined_df))
    = (length (rows (financial_df g))
       + length (rows (commodities_df g)))%nat.
Proof.
  intros Hc. apply combine_inv in Hc.
  destruct (source_filter_counts g) as [Hfin Hcom].
  split; [|split; [|split]].
  - apply Forall_forall. intros r' Hr'.
    apply list_elem_of_lookup in Hr' as [i Hi].
    destruct (Forall2_lookup_r _ _ _ _ _ Hc Hi) as (r & Hr & Hsame).
    unfold tagged. rewrite Hsame by done.
    apply list_elem_of_lookup_2 in Hr. revert Hr.
    unfold tag_sources, concat, setitem_scalar.
    cbn [financial_df commodities_df rows].
    rewrite elem_of_app, !list_elem_of_fmap.
    intros [(r0 & -> & _)|(r0 & -> & _)]; rewrite lookup_insert_eq; auto.
  - cbn [filter_dataset select_rows rows].
    rewrite (filter_length_related same_but_derived
               (has_source "financial") (has_source "financial") _ _
               (has_source_same "financial") Hc).
    rewrite Hfin. unfold tag_sources, setitem_scalar.
    cbn [financial_df rows]. apply length_fmap.
  - cbn [filter_dataset select_rows rows].
    rewrite (filter_length_related same_but_derived
               (has_source "commodities") (has_source "commodities") _ _
               (has_source_same "commodities") Hc).
    rewrite Hcom. unfold tag_sources, setitem_scalar.
    cbn [commodities_df rows]. apply length_fmap.
  - cbn [filter_dataset]. apply Forall2_length in Hc. rewrite <- Hc.
    unfold tag_sources, concat, setitem_scalar.
    cbn [financial_df commodities_df rows].
    by rewrite length_app, !length_fmap.
Qed.

Lemma dataset_filter_partitions_witness :
  Forall tagged (rows sample_combined)
  ∧ length (rows (filter_dataset Financial sample_combined))
    = length (rows (financial_df sample_globals))
  ∧ length (rows (filter_dataset Commodities sample_combined))
    = length (rows (commodities_df sample_globals))
  ∧ length (rows (filter_dataset AllData sample_combined))
    = (length (rows (financial_df sample_globals))
       + length (rows (commodities_df sample_globals)))%nat.
Proof.
  apply (dataset_filter_partitions sample_globals sample_combined).
  vm_compute. reflexivity.
Defined.

(** ** Outcome of the page once the combined table is built *)



(** X17 -- a dataset choice that selects no row (the financial dataset
    when the financial file was missing, say) is not an error: the yearly
    aggregate of any column of the table is the empty list, and the monthly
    aggregate is the empty list under [observed=True] and twelve NaN
    buckets, January to December, under [observed=False]. *)
Theorem aggregate_of_no_rows (observed : bool) (time_agg : TimeAgg)
    (filtered_df : DataFrame) (column : string) :
  rows filtered_df = [] → column ∈ columns filtered_df →
  aggregate observed time_agg filtered_df column
  = Ok (match time_agg with
        | Yearly => []
        | Monthly =>
            if observed then []
            else (fun m => (CStr (month_name m), NaN)) <$> all_months
        end).
Proof.
  intros Hrows Hcol. unfold aggregate.
  rewrite getitem_present by exact Hcol. rewrite Hrows.
  by destruct time_agg, observed.
Qed.

Lemma aggregate_of_no_rows_witness :
  aggregate false Monthly
    (filter_dataset Financial
       (match combine (tag_sources commodities_only) with
        | Ok combined_df => combined_df
        | Raise _ => empty_frame
        end)) "CPI"
  = Ok ((fun m => (CStr (month_name m), NaN)) <$> all_months).
Proof.
  apply (aggregate_of_no_rows false Monthly).
  - vm_compute. reflexivity.
  - apply list_elem_of_In. vm_compute. auto.
Defined.
